(** * Resource matching and span enrichment of opentelemetry-sdk-trace-web

    A shallow embedding of [packages/opentelemetry-sdk-trace-web/src/utils.ts]:
    the resource matcher ([getResource], [filterResourcesForSpan],
    [sortResources], [findMainRequest]), the span enricher
    ([addSpanNetworkEvent], [addSpanNetworkEvents]), the body-length
    helpers ([getXHRBodyLength], [getFetchBodyLength],
    [_getBodyNonDestructively]), the URL helpers ([parseUrl],
    [normalizeUrl], [shouldPropagateTraceHeaders]) and the XPath of an
    element ([getElementXPath], [getNodeIndex], [getNodeValue]).

    Conventions of the embedding:
    - a JS number that carries a time or a size is a [Z]; NaN and the
      infinities are not represented;
    - a JS string is a [string] of 8-bit characters, [toLowerCase] acts on
      the letters A-Z;
    - a JS object compared by identity carries an [objectId];
    - [undefined] for an optional value is [None];
    - a thrown exception is [None] (option monad) or [Throw] (call log). *)

From Stdlib Require Import ZArith Lia Ascii String List Permutation Sorted.
From Stdlib Require Import DecimalString.
From stdpp Require Import base option gmap strings list.

Local Open Scope string_scope.
Local Open Scope Z_scope.

#[local] Set Default Proof Using "Type".

(** ** Data model *)

(** [api.HrTime]: the pair [seconds, nanoseconds]. *)
Definition HrTime : Type := Z * Z.

(** The fields of the browser's [PerformanceResourceTiming] that the matcher
    reads.  [objectId] is the identity of the JS object: the WeakSet of
    ignored resources tests identity, not structure. *)
Record PerformanceResourceTiming : Type := {
  objectId : positive;
  name : string;
  initiatorType : string;
  fetchStart : Z;
  responseEnd : Z
}.

(** [PerformanceResourceTimingInfo] of [./types]. *)
Record PerformanceResourceTimingInfo : Type := {
  corsPreFlightRequest : option PerformanceResourceTiming;
  mainRequest : option PerformanceResourceTiming
}.

(** The two fields of [URLLike] that the matcher reads; [toString()] of a
    URL and of an anchor element is its [href]. *)
Record URLLike : Type := {
  href : string;
  origin : string
}.

(** The browser's [location]. *)
Record Location : Type := {
  location_href : string;
  location_origin : string
}.

(** [WeakSet<PerformanceResourceTiming>]: a set of object identities. *)
Abbreviation WeakSet := (gset positive).

Definition WeakSet_has (s : WeakSet) (r : PerformanceResourceTiming) : bool :=
  bool_decide (objectId r ∈ s).

(** ** JS primitives *)

(** [a || b] for an optional string [a]: [undefined] and the empty string
    are falsy. *)
Definition or_else (a : option string) (b : string) : string :=
  match a with
  | Some s => if String.eqb s "" then b else s
  | None => b
  end.

Definition isUpperCase (c : ascii) : bool :=
  let n := nat_of_ascii c in (65 <=? n)%nat && (n <=? 90)%nat.

Definition lowerChar (c : ascii) : ascii :=
  if isUpperCase c then ascii_of_nat (nat_of_ascii c + 32) else c.

(** [String.prototype.toLowerCase]. *)
Fixpoint toLowerCase (s : string) : string :=
  match s with
  | EmptyString => EmptyString
  | String c s' => String (lowerChar c) (toLowerCase s')
  end.

(** [s] contains an upper-case letter. *)
Fixpoint hasUpperCase (s : string) : bool :=
  match s with
  | EmptyString => false
  | String c s' => isUpperCase c || hasUpperCase s'
  end.

(** Two characters are the same letter up to case. *)
Definition sameLetter (a b : ascii) : Prop :=
  a = b
  \/ (isUpperCase a = true /\ nat_of_ascii b = (nat_of_ascii a + 32)%nat)
  \/ (isUpperCase b = true /\ nat_of_ascii a = (nat_of_ascii b + 32)%nat).

(** Two strings differ at most in the case of their letters. *)
Inductive differsOnlyInCase : string -> string -> Prop :=
| doic_nil : differsOnlyInCase EmptyString EmptyString
| doic_cons a b s t :
    sameLetter a b -> differsOnlyInCase s t ->
    differsOnlyInCase (String a s) (String b t).

(** ** sortResources *)

(** The comparator of [sortResources] orders by [fetchStart]; the sort of
    an array is stable, so an element moves in front of another only when
    its [fetchStart] is strictly smaller.  [insertByFetchStart r l] puts
    [r], which preceded every element of [l] in the input, in its place. *)
Fixpoint insertByFetchStart (r : PerformanceResourceTiming)
    (l : list PerformanceResourceTiming) : list PerformanceResourceTiming :=
  match l with
  | [] => [r]
  | x :: l' =>
      if fetchStart x <? fetchStart r then x :: insertByFetchStart r l'
      else r :: x :: l'
  end.

(** [filteredResources.slice().sort(...)]: a sorted copy. *)
Fixpoint sortResources (filteredResources : list PerformanceResourceTiming)
    : list PerformanceResourceTiming :=
  match filteredResources with
  | [] => []
  | r :: l => insertByFetchStart r (sortResources l)
  end.

(** The order the sort establishes. *)
Definition byFetchStart (a b : PerformanceResourceTiming) : Prop :=
  fetchStart a <= fetchStart b.

(** Of two candidates [x], [y] in buffer order, the one with the earlier
    fetch-start; [x] when both start together. *)
Definition earlier (x y : PerformanceResourceTiming)
    : PerformanceResourceTiming :=
  if fetchStart y <? fetchStart x then y else x.

(** Of two candidates [x], [y] in buffer order, the other one. *)
Definition later (x y : PerformanceResourceTiming)
    : PerformanceResourceTiming :=
  if fetchStart y <? fetchStart x then x else y.

(** ** The matcher *)

Section Matcher.

(** The browser: the [URL] constructor when there is one ([None] from it
    is the TypeError of an unparsable URL), [document.baseURI] when there
    is a document, [location] when there is one, and the anchor element
    of the fallback after [element.href = url]. *)
Variable URL : option (string -> option string -> option URLLike).
Variable document_baseURI : option string.
Variable location : option Location.
Variable anchorWithHref : string -> URLLike.

(** The time helpers of [@opentelemetry/core]. *)
Variable timeInputToHrTime : Z -> HrTime.
Variable hrTimeToNanoseconds : HrTime -> Z.

Definition getOrigin : option string :=
  match location with
  | Some l => Some (location_origin l)
  | None => None
  end.

Definition parseUrl (url : string) : option URLLike :=
  match URL with
  | Some newURL =>
      newURL url
        (match document_baseURI with
         | Some baseURI => Some baseURI
         | None =>
             match location with
             | Some l => Some (location_href l)
             | None => None
             end
         end)
  | None => Some (anchorWithHref url)
  end.

(** The predicate of the first [filter] of [filterResourcesForSpan]. *)
Definition matchesSpan (spanUrl : string) (startTime endTime : Z)
    (initiatorType' : option string) (resource : PerformanceResourceTiming)
    : bool :=
  let resourceStartTime :=
    hrTimeToNanoseconds (timeInputToHrTime (fetchStart resource)) in
  let resourceEndTime :=
    hrTimeToNanoseconds (timeInputToHrTime (responseEnd resource)) in
  String.eqb (toLowerCase (initiatorType resource))
             (or_else initiatorType' "xmlhttprequest")
  && String.eqb (name resource) spanUrl
  && (resourceStartTime >=? startTime)
  && (resourceEndTime <=? endTime).

Definition filterResourcesForSpan (spanUrl : string)
    (startTimeHR endTimeHR : HrTime)
    (resources : list PerformanceResourceTiming)
    (ignoredResources : WeakSet) (initiatorType' : option string)
    : list PerformanceResourceTiming :=
  let startTime := hrTimeToNanoseconds startTimeHR in
  let endTime := hrTimeToNanoseconds endTimeHR in
  let filteredResources :=
    List.filter (matchesSpan spanUrl startTime endTime initiatorType')
                resources in
  if (0 <? length filteredResources)%nat then
    List.filter (fun resource => negb (WeakSet_has ignoredResources resource))
                filteredResources
  else filteredResources.

(** [!bestGap]: [undefined] and [0] are falsy. *)
Definition notTruthy (bestGap : option Z) : bool :=
  match bestGap with
  | None => true
  | Some g => g =? 0
  end.

(** [currentGap < bestGap]; against [undefined] the comparison is false. *)
Definition ltGap (currentGap : Z) (bestGap : option Z) : bool :=
  match bestGap with
  | None => false
  | Some g => currentGap <? g
  end.

(** One turn of the loop of [findMainRequest], on the pair
    [(mainRequest, bestGap)]. *)
Definition findMainRequest_step (minTime spanEndTime : Z)
    (st : option PerformanceResourceTiming * option Z)
    (resource : PerformanceResourceTiming)
    : option PerformanceResourceTiming * option Z :=
  let '(mainRequest', bestGap) := st in
  let resourceStartTime :=
    hrTimeToNanoseconds (timeInputToHrTime (fetchStart resource)) in
  let resourceEndTime :=
    hrTimeToNanoseconds (timeInputToHrTime (responseEnd resource)) in
  let currentGap := spanEndTime - resourceEndTime in
  if (resourceStartTime >=? minTime)
     && (notTruthy bestGap || ltGap currentGap bestGap)
  then (Some resource, Some currentGap)
  else (mainRequest', bestGap).

(** The two quantities a turn of the loop computes for a candidate when
    the span ends at [spanEndTime] and the preflight at [minTime]: whether
    the candidate starts at or after the end of the preflight, and the gap
    between its end and the end of the span. *)
Definition startsAfter (minTime : Z) (resource : PerformanceResourceTiming)
    : Prop :=
  minTime <= hrTimeToNanoseconds (timeInputToHrTime (fetchStart resource)).

Definition gapToSpanEnd (spanEndTime : Z)
    (resource : PerformanceResourceTiming) : Z :=
  spanEndTime
  - hrTimeToNanoseconds (timeInputToHrTime (responseEnd resource)).

(** [m], at index [i] of [cands], is the first of the candidates with the
    least gap among those that start at or after [minTime]. *)
Definition firstLeastGap (minTime spanEndTime : Z)
    (cands : list PerformanceResourceTiming) (i : nat)
    (m : PerformanceResourceTiming) : Prop :=
  cands !! i = Some m
  /\ startsAfter minTime m
  /\ forall j r, cands !! j = Some r -> startsAfter minTime r ->
       gapToSpanEnd spanEndTime m <= gapToSpanEnd spanEndTime r
       /\ (gapToSpanEnd spanEndTime r = gapToSpanEnd spanEndTime m ->
           (i <= j)%nat).

(** [findMainRequest]: [mainRequest] starts as [resources[1]]
    ([undefined] on a shorter array) and the loop runs over the indices
    [1 .. length - 1]. *)
Definition findMainRequest (resources : list PerformanceResourceTiming)
    (corsPreFlightRequestEndTime : Z) (spanEndTimeHR : HrTime)
    : option PerformanceResourceTiming :=
  let spanEndTime := hrTimeToNanoseconds spanEndTimeHR in
  let minTime :=
    hrTimeToNanoseconds (timeInputToHrTime corsPreFlightRequestEndTime) in
  fst (fold_left (findMainRequest_step minTime spanEndTime)
                 (drop 1 resources)
                 (resources !! 1%nat, None)).

(** [getResource].  [ignoredResources] and [initiatorType'] are the two
    optional arguments; the result is [None] when an exception leaves the
    function. *)
Definition getResource (spanUrl : string) (startTimeHR endTimeHR : HrTime)
    (resources : list PerformanceResourceTiming)
    (ignoredResources : option WeakSet) (initiatorType' : option string)
    : option PerformanceResourceTimingInfo :=
  parsedSpanUrl ← parseUrl spanUrl;
  let spanUrl := href parsedSpanUrl in
  let filteredResources :=
    filterResourcesForSpan spanUrl startTimeHR endTimeHR resources
      (default ∅ ignoredResources) initiatorType' in
  if (length filteredResources =? 0)%nat then
    Some {| corsPreFlightRequest := None; mainRequest := None |}
  else if (length filteredResources =? 1)%nat then
    Some {| corsPreFlightRequest := None;
            mainRequest := filteredResources !! 0%nat |}
  else
    let sorted := sortResources filteredResources in
    if bool_decide (Some (origin parsedSpanUrl) ≠ getOrigin)
       && (1 <? length sorted)%nat
    then
      corsPreFlightRequest' ← sorted !! 0%nat;
      mainRequest' ←
        findMainRequest sorted (responseEnd corsPreFlightRequest') endTimeHR;
      let responseEnd' := responseEnd corsPreFlightRequest' in
      let fetchStart' := fetchStart mainRequest' in
      if fetchStart' <? responseEnd' then
        Some {| corsPreFlightRequest := None;
                mainRequest := Some corsPreFlightRequest' |}
      else
        Some {| corsPreFlightRequest := Some corsPreFlightRequest';
                mainRequest := Some mainRequest' |}
    else
      Some {| corsPreFlightRequest := None;
              mainRequest := filteredResources !! 0%nat |}.

End Matcher.

(** ** The span enricher *)

(** The JS values an entry can hold under a key. *)
Inductive JsValue : Type :=
| JUndefined
| JNull
| JBoolean (b : bool)
| JNumber (n : Z)
| JString (s : string).

#[global] Instance JsValue_eq_dec : EqDecision JsValue.
Proof. solve_decision. Defined.

(** [PerformanceEntries]: an object read by key. *)
Abbreviation PerformanceEntries := (gmap string JsValue).

(** [key in obj]. *)
Definition hasKey (obj : PerformanceEntries) (key : string) : bool :=
  bool_decide (is_Some (obj !! key)).

(** [obj[key]]. *)
Definition getProp (obj : PerformanceEntries) (key : string) : JsValue :=
  default JUndefined (obj !! key).

(** [typeof v === 'number']. *)
Definition typeofNumber (v : JsValue) : bool :=
  match v with
  | JNumber _ => true
  | _ => false
  end.

(** [v !== undefined]. *)
Definition isDefined (v : JsValue) : bool :=
  match v with
  | JUndefined => false
  | _ => true
  end.

(** [a !== b] on primitive values. *)
Definition strictNotEqual (a b : JsValue) : bool := bool_decide (a ≠ b).

(** Modelled from the spec: the enum [PerformanceTimingNames]
    ([./enums/PerformanceTimingNames]) is not among the files embedded
    here.  Its members are the timestamp and size fields the data model
    lists (fetch-start, DNS-lookup start and end, connect start and end,
    secure-connection start, request-start, response-start, response-end,
    encoded and decoded body size), under the browser's names for them. *)
Module PTN.
Definition CONNECT_END := "connectEnd".
Definition CONNECT_START := "connectStart".
Definition DECODED_BODY_SIZE := "decodedBodySize".
Definition DOMAIN_LOOKUP_END := "domainLookupEnd".
Definition DOMAIN_LOOKUP_START := "domainLookupStart".
Definition ENCODED_BODY_SIZE := "encodedBodySize".
Definition FETCH_START := "fetchStart".
Definition REQUEST_START := "requestStart".
Definition RESPONSE_END := "responseEnd".
Definition RESPONSE_START := "responseStart".
Definition SECURE_CONNECTION_START := "secureConnectionStart".
End PTN.

(** Modelled from the spec: the two attribute names of
    [@opentelemetry/semantic-conventions], the response-content-length
    attribute and the uncompressed-content-length attribute. *)
Definition SEMATTRS_HTTP_RESPONSE_CONTENT_LENGTH : string :=
  "http.response_content_length".
Definition SEMATTRS_HTTP_RESPONSE_CONTENT_LENGTH_UNCOMPRESSED : string :=
  "http.response_content_length_uncompressed".

(** The span belongs to the tracing API; the enricher only calls it.  Its
    effect on the span is the sequence of calls it issues. *)
Inductive SpanCall : Type :=
| AddEvent (eventName : string) (time : Z)
| SetAttribute (key : string) (value : JsValue).

(** How a function ends: with a value or with an exception. *)
Inductive Completion (A : Type) : Type :=
| Normal (a : A)
| Throw (e : string).
Arguments Normal {A} a.
Arguments Throw {A} e.

(** A computation on the span: the calls issued, in order, and the way it
    ends. *)
Definition Eff (A : Type) : Type := list SpanCall * Completion A.

Definition calls {A} (m : Eff A) : list SpanCall := fst m.
Definition completion {A} (m : Eff A) : Completion A := snd m.

#[global] Instance Eff_ret : MRet Eff := fun A a => ([], Normal a).

#[global] Instance Eff_bind : MBind Eff := fun A B f m =>
  match snd m with
  | Normal a => ((fst m ++ fst (f a))%list, snd (f a))
  | Throw e => (fst m, Throw e)
  end.

Definition span_addEvent (eventName : string) (time : Z) : Eff unit :=
  ([AddEvent eventName time], Normal tt).

Definition span_setAttribute (key : string) (value : JsValue) : Eff unit :=
  ([SetAttribute key value], Normal tt).

(** [v.startsWith(p)]: a method of strings only; on any other value the
    property read or the call is a TypeError. *)
Definition startsWith (v : JsValue) (p : string) : Eff bool :=
  match v with
  | JString s => mret (String.prefix p s)
  | _ => ([], Throw "TypeError")
  end.

(** [addSpanNetworkEvent(span, performanceName, entries, refPerfName)];
    the result is [true] when the span is returned and [false] when
    [undefined] is. *)
Definition addSpanNetworkEvent (performanceName : string)
    (entries : PerformanceEntries) (refPerfName : option string) : Eff bool :=
  let perfTime :=
    if hasKey entries performanceName
       && typeofNumber (getProp entries performanceName)
    then getProp entries performanceName else JUndefined in
  let refName := or_else refPerfName PTN.FETCH_START in
  let refTime :=
    if hasKey entries refName && typeofNumber (getProp entries refName)
    then getProp entries refName else JUndefined in
  match perfTime, refTime with
  | JNumber perfTime', JNumber refTime' =>
      if perfTime' >=? refTime' then
        span_addEvent performanceName perfTime' ;; mret true
      else mret false
  | _, _ => mret false
  end.

(** [addSpanNetworkEvents(span, resource)]. *)
Definition addSpanNetworkEvents (resource : PerformanceEntries) : Eff unit :=
  addSpanNetworkEvent PTN.FETCH_START resource None ;;
  addSpanNetworkEvent PTN.DOMAIN_LOOKUP_START resource None ;;
  addSpanNetworkEvent PTN.DOMAIN_LOOKUP_END resource None ;;
  addSpanNetworkEvent PTN.CONNECT_START resource None ;;
  secure ← (if hasKey resource "name"
            then startsWith (getProp resource "name") "https:"
            else mret false);
  (if secure : bool
   then addSpanNetworkEvent PTN.SECURE_CONNECTION_START resource None
   else mret false) ;;
  addSpanNetworkEvent PTN.CONNECT_END resource None ;;
  addSpanNetworkEvent PTN.REQUEST_START resource None ;;
  addSpanNetworkEvent PTN.RESPONSE_START resource None ;;
  addSpanNetworkEvent PTN.RESPONSE_END resource None ;;
  let encodedLength := getProp resource PTN.ENCODED_BODY_SIZE in
  (if isDefined encodedLength
   then span_setAttribute SEMATTRS_HTTP_RESPONSE_CONTENT_LENGTH encodedLength
   else mret tt) ;;
  let decodedLength := getProp resource PTN.DECODED_BODY_SIZE in
  if isDefined decodedLength && strictNotEqual encodedLength decodedLength
  then span_setAttribute SEMATTRS_HTTP_RESPONSE_CONTENT_LENGTH_UNCOMPRESSED
         decodedLength
  else mret tt.

(** ** getXHRBodyLength *)

Section BodyLength.

(** The DOM and the URL API: the type of documents, [XMLSerializer]'s
    [serializeToString], the global [document], whether the global
    [Document] exists, and [URLSearchParams.prototype.toString] on a list
    of name-value pairs (the entries of a form or of search parameters). *)
Variable Document : Type.
Variable serializeToString : Document -> string.
Variable document : Document.
Variable DocumentDefined : bool.
Variable searchParamsToString : list (string * string) -> string.

(** [Document | XMLHttpRequestBodyInit], and any other value a caller
    passes at run time. *)
Inductive XHRBody : Type :=
| BodyDocument (d : Document)
| BodyBlob (size : Z)
| BodyBufferSource (byteLength : Z)
| BodyFormData (entries : list (string * string))
| BodyURLSearchParams (entries : list (string * string))
| BodyString (s : string)
| BodyUnknown.

Definition stringLength (s : string) : Z := Z.of_nat (String.length s).

(** The result and the warnings given to [DIAG_LOGGER.warn]. *)
Definition getXHRBodyLength (body : XHRBody) : Z * list string :=
  match body with
  | BodyDocument d =>
      if DocumentDefined
      then (stringLength (serializeToString document), [])
      else (0, ["unknown body type"])
  | BodyBlob size => (size, [])
  | BodyBufferSource byteLength => (byteLength, [])
  | BodyFormData entries =>
      (stringLength (searchParamsToString entries), [])
  | BodyURLSearchParams entries =>
      (stringLength (searchParamsToString entries), [])
  | BodyString s => (stringLength s, [])
  | BodyUnknown => (0, ["unknown body type"])
  end.

(** The length of a body in the words of the spec: the natural length of
    each representation (for a document, the length of the serialization
    of that document), and [0] with one warning for an unrecognized
    one. *)
Definition naturalBodyLength (body : XHRBody) : Z * list string :=
  match body with
  | BodyDocument d => (stringLength (serializeToString d), [])
  | BodyBlob size => (size, [])
  | BodyBufferSource byteLength => (byteLength, [])
  | BodyFormData entries =>
      (stringLength (searchParamsToString entries), [])
  | BodyURLSearchParams entries =>
      (stringLength (searchParamsToString entries), [])
  | BodyString s => (stringLength s, [])
  | BodyUnknown => (0, ["unknown body type"])
  end.

End BodyLength.

Arguments BodyDocument {Document} d.
Arguments BodyBlob {Document} size.
Arguments BodyBufferSource {Document} byteLength.
Arguments BodyFormData {Document} entries.
Arguments BodyURLSearchParams {Document} entries.
Arguments BodyString {Document} s.
Arguments BodyUnknown {Document}.

(** ** An instance for the examples *)

Module Example.

(** Modelled from the spec: the time helpers [timeInputToHrTime] and
    [hrTimeToNanoseconds] of [@opentelemetry/core] are not among the files
    embedded here.  The spec compares the times of an entry with the
    span window on one time line; this instance puts a timestamp in whole
    milliseconds on the [seconds, nanoseconds] line and measures that
    line in nanoseconds. *)
Definition timeInputToHrTime (time : Z) : HrTime :=
  (time ÷ 1000, Z.rem time 1000 * 1000000).

(** Modelled from the spec: see [timeInputToHrTime]; the position of a
    [seconds, nanoseconds] pair on the time line, in nanoseconds. *)
Definition hrTimeToNanoseconds (time : HrTime) : Z :=
  fst time * 1000000000 + snd time.

(** The origin of an absolute URL: what precedes its third slash. *)
Fixpoint originOf (slashes : nat) (url : string) : string :=
  match url with
  | EmptyString => EmptyString
  | String c url' =>
      if Ascii.eqb c "/" then
        match slashes with
        | 2%nat => EmptyString
        | _ => String c (originOf (S slashes) url')
        end
      else String c (originOf slashes url')
  end.

(** A [URL] constructor for absolute URLs. *)
Definition newURL (url : string) (base : option string) : option URLLike :=
  Some {| href := url; origin := originOf 0 url |}.

(** The page [http://foo.com/index.html]. *)
Definition page : Location :=
  {| location_href := "http://foo.com/index.html";
     location_origin := "http://foo.com" |}.

Definition anchor (url : string) : URLLike :=
  {| href := url; origin := originOf 0 url |}.

(** [getResource] in this browser. *)
Definition getResource :=
  getResource (Some newURL) (Some (location_href page)) (Some page) anchor
              timeInputToHrTime hrTimeToNanoseconds.

(** An entry of a compressed response fetched over https. *)
Definition compressed : PerformanceEntries :=
  <["name" := JString "https://foo.com/bar.json"]>
    (<[PTN.FETCH_START := JNumber 5]>
       (<[PTN.RESPONSE_END := JNumber 9]>
          (<[PTN.ENCODED_BODY_SIZE := JNumber 120]>
             (<[PTN.DECODED_BODY_SIZE := JNumber 340]> ∅)))).

(** The same entry without compression. *)
Definition uncompressed : PerformanceEntries :=
  <[PTN.DECODED_BODY_SIZE := JNumber 120]> compressed.

(** A DOM whose documents are their markup. *)
Definition serializeToString (d : string) : string := d.

(** The page's own document. *)
Definition document : string := "<html></html>".

(** [URLSearchParams.prototype.toString] on pairs whose names and values
    need no escaping. *)
Fixpoint searchParamsToString (entries : list (string * string)) : string :=
  match entries with
  | [] => ""
  | [(k, v)] => k ++ "=" ++ v
  | (k, v) :: rest => k ++ "=" ++ v ++ "&" ++ searchParamsToString rest
  end.

(** [getXHRBodyLength] in this browser. *)
Definition getXHRBodyLength :=
  getXHRBodyLength string serializeToString document true
    searchParamsToString.

(** A resource requested by XMLHttpRequest. *)
Definition xhr (id : positive) (url : string) (fetchStart' responseEnd' : Z)
    : PerformanceResourceTiming :=
  {| objectId := id; name := url; initiatorType := "xmlhttprequest";
     fetchStart := fetchStart'; responseEnd := responseEnd' |}.

(** A URL of the page's origin and one of another origin. *)
Definition foo : string := "http://foo.com/bar.json".
Definition bar : string := "http://bar.com/bar.json".
Definition parsedBar : URLLike :=
  {| href := bar; origin := "http://bar.com" |}.

(** The span window: from 0 to 10 ms. *)
Definition spanStart : HrTime := (0, 0).
Definition spanEnd : HrTime := (0, 10000000).

(** A resource whose initiator type is spelled in mixed case. *)
Definition mixedCase : PerformanceResourceTiming :=
  {| objectId := 1; name := foo; initiatorType := "XMLHttpRequest";
     fetchStart := 2; responseEnd := 9 |}.

(** Two requests of one URL; the one that started last completed first
    and so is first in the buffer. *)
Definition startedLast : PerformanceResourceTiming := xhr 1 foo 5 6.
Definition startedFirst : PerformanceResourceTiming := xhr 2 foo 3 8.

(** A preflight and two requests after it; the first of them ends with
    the span, the second a millisecond before. *)
Definition preflight : PerformanceResourceTiming := xhr 1 bar 0 1.
Definition endsWithSpan : PerformanceResourceTiming := xhr 2 bar 2 10.
Definition endsBefore : PerformanceResourceTiming := xhr 3 bar 3 9.

End Example.

(** ** The calls of the enricher, milestone by milestone *)

(** The milestones in the order [addSpanNetworkEvents] visits them; the
    secure-connection start is visited for https resources only. *)
Definition milestones : list string :=
  [PTN.FETCH_START; PTN.DOMAIN_LOOKUP_START; PTN.DOMAIN_LOOKUP_END;
   PTN.CONNECT_START; PTN.SECURE_CONNECTION_START; PTN.CONNECT_END;
   PTN.REQUEST_START; PTN.RESPONSE_START; PTN.RESPONSE_END].

Definition milestonesBeforeName : list string :=
  [PTN.FETCH_START; PTN.DOMAIN_LOOKUP_START; PTN.DOMAIN_LOOKUP_END;
   PTN.CONNECT_START].

Definition milestonesInsecure : list string :=
  [PTN.FETCH_START; PTN.DOMAIN_LOOKUP_START; PTN.DOMAIN_LOOKUP_END;
   PTN.CONNECT_START; PTN.CONNECT_END;
   PTN.REQUEST_START; PTN.RESPONSE_START; PTN.RESPONSE_END].

(** The event of a milestone when the reference is the fetch-start: the
    milestone's time, when both are numbers and the milestone is not
    before the fetch-start. *)
Definition milestoneEvent (entries : PerformanceEntries)
    (performanceName : string) : list SpanCall :=
  match entries !! performanceName, entries !! PTN.FETCH_START with
  | Some (JNumber t), Some (JNumber r) =>
      if t >=? r then [AddEvent performanceName t] else []
  | _, _ => []
  end.

(** The two size attributes in the order they are set. *)
Definition sizeAttributes (resource : PerformanceEntries) : list SpanCall :=
  let encodedLength := getProp resource PTN.ENCODED_BODY_SIZE in
  let decodedLength := getProp resource PTN.DECODED_BODY_SIZE in
  ((if isDefined encodedLength
    then [SetAttribute SEMATTRS_HTTP_RESPONSE_CONTENT_LENGTH encodedLength]
    else [])
   ++ (if isDefined decodedLength
          && strictNotEqual encodedLength decodedLength
       then [SetAttribute SEMATTRS_HTTP_RESPONSE_CONTENT_LENGTH_UNCOMPRESSED
               decodedLength]
       else []))%list.

(** ** normalizeUrl and shouldPropagateTraceHeaders *)

Section UrlHelpers.

Variable URL : option (string -> option string -> option URLLike).
Variable document_baseURI : option string.
Variable location : option Location.
Variable anchorWithHref : string -> URLLike.

(** Regular expressions, and [urlMatches] of [@opentelemetry/core] on a
    URL and a pattern that is a string or a regular expression. *)
Variable RegExp : Type.
Variable urlMatches : string -> string + RegExp -> bool.

(** [normalizeUrl]; [None] when [parseUrl] throws. *)
Definition normalizeUrl (url : string) : option string :=
  urlLike ← parseUrl URL document_baseURI location anchorWithHref url;
  Some (href urlLike).

(** Modelled from the spec: the type [PropagateTraceHeaderCorsUrls] of
    [./types] is not among the files embedded here; the allow-list of URL
    patterns or regular expressions, which the function accepts as one
    pattern or as an array of patterns. *)
Inductive PropagateTraceHeaderCorsUrls : Type :=
| OnePattern (p : string + RegExp)
| PatternArray (l : list (string + RegExp)).

(** [propagateTraceHeaderCorsUrls || []], then a single string or regular
    expression wrapped in an array.  The empty string is falsy. *)
Definition propagateTraceHeaderUrls
    (propagateTraceHeaderCorsUrls : option PropagateTraceHeaderCorsUrls)
    : list (string + RegExp) :=
  match propagateTraceHeaderCorsUrls with
  | None => []
  | Some (OnePattern (inl EmptyString)) => []
  | Some (OnePattern p) => [p]
  | Some (PatternArray l) => l
  end.

(** [shouldPropagateTraceHeaders]; [None] when [parseUrl] throws. *)
Definition shouldPropagateTraceHeaders (spanUrl : string)
    (propagateTraceHeaderCorsUrls : option PropagateTraceHeaderCorsUrls)
    : option bool :=
  let urls := propagateTraceHeaderUrls propagateTraceHeaderCorsUrls in
  parsedSpanUrl ← parseUrl URL document_baseURI location anchorWithHref
                    spanUrl;
  if bool_decide (Some (origin parsedSpanUrl) = getOrigin location)
  then Some true
  else Some (existsb (urlMatches spanUrl) urls).

End UrlHelpers.

Arguments OnePattern {RegExp} p.
Arguments PatternArray {RegExp} l.

(** ** getFetchBodyLength *)

(** A settled promise. *)
Inductive Promise (A : Type) : Type :=
| Resolved (a : A)
| Rejected.
Arguments Resolved {A} a.
Arguments Rejected {A}.

(** What [reader.read()] settles to: a result with an optional chunk (its
    [length]) and the [done] flag, or a rejection. *)
Inductive ReadOutcome : Type :=
| ReadResult (value : option Z) (done : bool)
| ReadRejected.

(** A [ReadableStream]: the outcomes its reader delivers, in order (a
    reader at the end of them finds the stream closed), and whether the
    platform gives it a [tee] method. *)
Record ReadableStream : Type := {
  reads : list ReadOutcome;
  hasTee : bool
}.

(** The loop of [lengthPromise], from the current [length]. *)
Fixpoint lengthPromise_loop (outcomes : list ReadOutcome) (length : Z)
    : Promise Z :=
  match outcomes with
  | [] => Resolved length
  | ReadRejected :: _ => Rejected
  | ReadResult value done :: rest =>
      let length :=
        match value with
        | Some chunkLength => length + chunkLength
        | None => length
        end in
      if done then Resolved length else lengthPromise_loop rest length
  end.

(** The outcomes of a stream that delivers the chunks of the given
    lengths, none of them with [done]. *)
Definition chunkReads (chunkLengths : list Z) : list ReadOutcome :=
  map (fun n => ReadResult (Some n) false) chunkLengths.

(** The sum of the lengths of the chunks. *)
Definition totalLength (chunkLengths : list Z) : Z :=
  fold_right Z.add 0 chunkLengths.

Definition lengthPromise (bodyToConsume : ReadableStream) : Promise Z :=
  lengthPromise_loop (reads bodyToConsume) 0.

(** [body.tee()]: two branches that deliver what the stream delivers. *)
Definition tee (body : ReadableStream) : ReadableStream * ReadableStream :=
  (body, body).

(** [_getBodyNonDestructively]: the body to hand back and the promise of
    the length, [null] ([None]) when the stream cannot be split. *)
Definition _getBodyNonDestructively (body : ReadableStream)
    : ReadableStream * Promise (option Z) :=
  if negb (hasTee body) then (body, Resolved None)
  else
    let '(bodyToReturn, bodyToConsume) := tee body in
    (bodyToReturn,
     match lengthPromise bodyToConsume with
     | Resolved n => Resolved (Some n)
     | Rejected => Rejected
     end).

(** What the promise of [getFetchBodyLength] resolves to. *)
Inductive LengthValue : Type :=
| LengthUndefined
| LengthNull
| LengthNumber (n : Z).

Section FetchBodyLength.

Variable Document : Type.
Variable serializeToString : Document -> string.
Variable document : Document.
Variable DocumentDefined : bool.
Variable searchParamsToString : list (string * string) -> string.

(** [RequestInit.body]: a stream or one of the other body values. *)
Inductive BodyInit : Type :=
| StreamBody (s : ReadableStream)
| PlainBody (b : XHRBody Document).

(** The [body] of a [RequestInit]; [None] when there is none. *)
Record RequestInit : Type := { init_body : option BodyInit }.

(** A [Request]: its [body] stream ([None] for [null]), whether [clone()]
    throws (the body was used or is locked), and what [text()] of a clone
    settles to. *)
Record Request : Type := {
  request_body : option ReadableStream;
  request_unusable : bool;
  request_text : Promise string
}.

(** The first argument of [fetch]. *)
Inductive RequestInfo : Type :=
| InfoURL (url : string)
| InfoString (s : string)
| InfoRequest (r : Request).

(** [!body] for a body value: of all of them only the empty string is
    falsy. *)
Definition isFalsyBody (body : BodyInit) : bool :=
  match body with
  | PlainBody (BodyString EmptyString) => true
  | _ => false
  end.

(** What [getFetchBodyLength] leaves and returns: the [RequestInit] after
    the call, the promise, and the warnings logged. *)
Record FetchBodyLength : Type := {
  requestInitAfter : option RequestInit;
  lengthResult : Promise LengthValue;
  warningsLogged : list string
}.

(** [getFetchBodyLength(...args)]; [None] when [clone()] throws. *)
Definition getFetchBodyLength (input : RequestInfo)
    (requestInit : option RequestInit) : option FetchBodyLength :=
  let resolvesUndefined :=
    {| requestInitAfter := requestInit;
       lengthResult := Resolved LengthUndefined;
       warningsLogged := [] |} in
  match input with
  | InfoURL _ | InfoString _ =>
      match requestInit ≫= init_body with
      | None => Some resolvesUndefined
      | Some body =>
          if isFalsyBody body then Some resolvesUndefined
          else
            match body with
            | StreamBody stream =>
                let '(body', length) := _getBodyNonDestructively stream in
                Some {| requestInitAfter :=
                          Some {| init_body := Some (StreamBody body') |};
                        lengthResult :=
                          match length with
                          | Resolved (Some n) => Resolved (LengthNumber n)
                          | Resolved None => Resolved LengthNull
                          | Rejected => Rejected
                          end;
                        warningsLogged := [] |}
            | PlainBody b =>
                let '(n, warnings) :=
                  getXHRBodyLength Document serializeToString document
                    DocumentDefined searchParamsToString b in
                Some {| requestInitAfter := requestInit;
                        lengthResult := Resolved (LengthNumber n);
                        warningsLogged := warnings |}
            end
      end
  | InfoRequest info =>
      match request_body info with
      | None => Some resolvesUndefined
      | Some _ =>
          if request_unusable info then None
          else
            Some {| requestInitAfter := requestInit;
                    lengthResult :=
                      match request_text info with
                      | Resolved t => Resolved (LengthNumber (stringLength t))
                      | Rejected => Rejected
                      end;
                    warningsLogged := [] |}
      end
  end.

End FetchBodyLength.

Arguments StreamBody {Document} s.
Arguments PlainBody {Document} b.

(** ** getElementXPath *)

(** The [nodeType] constants of the DOM. *)
Module NodeTypes.
Definition ELEMENT_NODE : Z := 1.
Definition TEXT_NODE : Z := 3.
Definition CDATA_SECTION_NODE : Z := 4.
Definition COMMENT_NODE : Z := 8.
Definition DOCUMENT_NODE : Z := 9.
End NodeTypes.

(** What the walk reads of a child of the parent: its [nodeType] and its
    [localName] ([None] for [undefined]). *)
Record Sibling : Type := {
  sibling_nodeType : Z;
  sibling_localName : option string
}.

(** A node with what the walk reads of it: its type, its [localName], its
    [id] attribute ([None] for [null]), and, when it has a parent, the
    parent, the parent's [childNodes] and the position of the node itself
    among them. *)
Inductive Node : Type :=
| DetachedNode (type : Z) (localName : option string)
    (idAttribute : option string)
| ChildNode (type : Z) (localName : option string)
    (idAttribute : option string)
    (parentNode : Node) (childNodes : list Sibling) (position : nat).

Definition nodeType (n : Node) : Z :=
  match n with
  | DetachedNode type _ _ => type
  | ChildNode type _ _ _ _ _ => type
  end.

Definition localName (n : Node) : option string :=
  match n with
  | DetachedNode _ name _ => name
  | ChildNode _ name _ _ _ _ => name
  end.

Definition getAttribute_id (n : Node) : option string :=
  match n with
  | DetachedNode _ _ id => id
  | ChildNode _ _ id _ _ _ => id
  end.

(** The double quote. *)
Definition doubleQuote : string := String "034"%char EmptyString.

(** A string in a template literal; [undefined] prints as its name. *)
Definition templateString (v : option string) : string :=
  match v with
  | Some s => s
  | None => "undefined"
  end.

(** A number in a template literal. *)
Definition templateNumber (n : Z) : string :=
  NilZero.string_of_int (Z.to_int n).

(** A string or [undefined] is truthy when it is a non-empty string. *)
Definition isTruthyString (v : option string) : bool :=
  match v with
  | Some s => negb (String.eqb s "")
  | None => false
  end.

(** [haystack.indexOf(needle)]. *)
Definition indexOf (haystack needle : string) : Z :=
  match String.index 0 needle haystack with
  | Some i => Z.of_nat i
  | None => -1
  end.

(** [elements.indexOf(target)] on the children kept by the filter, each
    with its position among all children: the target is the child at
    [position]. *)
Fixpoint indexOfTarget (position : nat) (elements : list (nat * Sibling))
    (i : Z) : Z :=
  match elements with
  | [] => -1
  | (j, _) :: rest =>
      if Nat.eqb j position then i else indexOfTarget position rest (i + 1)
  end.

(** The test of the filter of [getNodeIndex]. *)
Definition similarSibling (allowedTypes : list Z)
    (targetLocalName : option string) (element : Sibling) : bool :=
  existsb (Z.eqb (sibling_nodeType element)) allowedTypes
  && bool_decide (sibling_localName element = targetLocalName).

Definition getNodeIndex (target : Node) : Z :=
  match target with
  | DetachedNode _ _ _ => 0
  | ChildNode type name _ _ childNodes position =>
      let allowedTypes :=
        if type =? NodeTypes.CDATA_SECTION_NODE
        then [type; NodeTypes.TEXT_NODE] else [type] in
      let elements :=
        List.filter (fun e => similarSibling allowedTypes name (snd e))
          (combine (seq 0 (length childNodes)) childNodes) in
      if (1 <=? length elements)%nat
      then indexOfTarget position elements 0 + 1
      else 0
  end.

Definition getNodeValue (target : Node) (optimised : bool) : string :=
  let type := nodeType target in
  let index := getNodeIndex target in
  let finish (nodeValue : option string) : string :=
    if isTruthyString nodeValue && (1 <? index)
    then "/" ++ templateString nodeValue ++ "[" ++ templateNumber index ++ "]"
    else "/" ++ templateString nodeValue in
  if type =? NodeTypes.ELEMENT_NODE then
    let id := getAttribute_id target in
    if optimised && isTruthyString id
    then "//*[@id=" ++ doubleQuote ++ templateString id ++ doubleQuote ++ "]"
    else finish (localName target)
  else if (type =? NodeTypes.TEXT_NODE)
          || (type =? NodeTypes.CDATA_SECTION_NODE)
  then finish (Some "text()")
  else if type =? NodeTypes.COMMENT_NODE then finish (Some "comment()")
  else "".

Fixpoint getElementXPath (target : Node) (optimised : bool) : string :=
  if nodeType target =? NodeTypes.DOCUMENT_NODE then "/"
  else
    let targetValue := getNodeValue target optimised in
    if optimised && (0 <? indexOf targetValue "@id") then targetValue
    else
      (match target with
       | ChildNode _ _ _ parentNode _ _ => getElementXPath parentNode false
       | DetachedNode _ _ _ => ""
       end) ++ targetValue.

(** The same node with the [id] attributes of all its ancestors removed. *)
Fixpoint withoutAncestorIds (keepOwn : bool) (n : Node) : Node :=
  match n with
  | DetachedNode type name id =>
      DetachedNode type name (if keepOwn then id else None)
  | ChildNode type name id parent childNodes position =>
      ChildNode type name (if keepOwn then id else None)
        (withoutAncestorIds false parent) childNodes position
  end.

(** ** Patterns for the examples *)

Module UrlExample.

(** Modelled from the spec: [urlMatches] of [@opentelemetry/core] is not
    among the files embedded here.  In this instance a string pattern
    matches the URL equal to it, and a regular expression is given by the
    prefix it anchors. *)
Definition urlMatches (url : string) (pattern : string + string) : bool :=
  match pattern with
  | inl s => String.eqb url s
  | inr anchoredPrefix => String.prefix anchoredPrefix url
  end.

(** [shouldPropagateTraceHeaders] on the page of the examples. *)
Definition shouldPropagateTraceHeaders :=
  shouldPropagateTraceHeaders (Some Example.newURL)
    (Some (location_href Example.page)) (Some Example.page) Example.anchor
    string urlMatches.

End UrlExample.

(** * Properties *)

(** ** JS primitives *)

(** Case analysis on the comparisons of character codes in the goal and in
    the hypotheses. *)
Ltac split_leb :=
  repeat match goal with
    | H : context [(?a <=? ?b)%nat] |- _ => destruct (Nat.leb_spec a b)
    | |- context [(?a <=? ?b)%nat] => destruct (Nat.leb_spec a b)
    end;
  simpl in *; try discriminate; try reflexivity; try lia.

Lemma isUpperCase_range (c : ascii) :
  isUpperCase c = true <-> (65 <= nat_of_ascii c <= 90)%nat.
Proof. unfold isUpperCase. split; intros H; split_leb. Qed.

Lemma isUpperCase_lowerChar (c : ascii) : isUpperCase (lowerChar c) = false.
Proof.
  unfold lowerChar. destruct (isUpperCase c) eqn:E; [|exact E].
  apply isUpperCase_range in E.
  apply not_true_is_false. rewrite isUpperCase_range.
  rewrite nat_ascii_embedding by lia. lia.
Qed.

Lemma hasUpperCase_toLowerCase (s : string) :
  hasUpperCase (toLowerCase s) = false.
Proof.
  induction s as [|c s IH]; simpl; [reflexivity|].
  now rewrite isUpperCase_lowerChar, IH.
Qed.

Lemma nat_of_ascii_inj (a b : ascii) : nat_of_ascii a = nat_of_ascii b -> a = b.
Proof.
  intros H. rewrite <- (ascii_nat_embedding a), <- (ascii_nat_embedding b).
  now rewrite H.
Qed.

Lemma sameLetter_lowerChar (a b : ascii) :
  sameLetter a b -> lowerChar a = lowerChar b.
Proof.
  assert (shift : forall x y, isUpperCase x = true ->
            nat_of_ascii y = (nat_of_ascii x + 32)%nat ->
            lowerChar x = lowerChar y).
  { intros x y Hx Hy. unfold lowerChar. rewrite Hx.
    apply isUpperCase_range in Hx.
    replace (isUpperCase y) with false.
    - apply nat_of_ascii_inj. rewrite Hy.
      rewrite nat_ascii_embedding by lia. reflexivity.
    - symmetry. apply not_true_is_false. rewrite isUpperCase_range. lia. }
  intros [-> | [[Ha Hb] | [Hb Ha]]]; [reflexivity | eauto | symmetry; eauto].
Qed.

(** Decides [sameLetter] on two given characters. *)
Ltac same_letter :=
  first [ left; reflexivity
        | right; left; split; reflexivity
        | right; right; split; reflexivity ].

Lemma differsOnlyInCase_toLowerCase (s t : string) :
  differsOnlyInCase s t -> toLowerCase s = toLowerCase t.
Proof.
  induction 1 as [|a b s t Hab _ IH]; simpl; [reflexivity|].
  now rewrite (sameLetter_lowerChar a b Hab), IH.
Qed.

Lemma or_else_supplied (s d : string) :
  hasUpperCase s = true -> or_else (Some s) d = s.
Proof. destruct s; simpl; [discriminate | reflexivity]. Qed.

(** ** sortResources: sorted, a permutation, stable *)

Lemma insertByFetchStart_perm r l :
  Permutation (r :: l) (insertByFetchStart r l).
Proof.
  induction l as [|x l IH]; simpl; [reflexivity|].
  destruct (fetchStart x <? fetchStart r); [|reflexivity].
  rewrite perm_swap. now constructor.
Qed.

Lemma sortResources_perm l : Permutation l (sortResources l).
Proof.
  induction l as [|r l IH]; simpl; [constructor|].
  rewrite <- insertByFetchStart_perm. now constructor.
Qed.

Lemma sortResources_length l : length (sortResources l) = length l.
Proof. symmetry. apply Permutation_length, sortResources_perm. Qed.

Lemma sortResources_In r l : In r (sortResources l) <-> In r l.
Proof.
  split; apply Permutation_in;
    [symmetry|]; apply sortResources_perm.
Qed.

Lemma insertByFetchStart_sorted r l :
  StronglySorted byFetchStart l ->
  StronglySorted byFetchStart (insertByFetchStart r l).
Proof.
  induction 1 as [|x l Hl IH Hx]; simpl.
  - repeat constructor.
  - destruct (fetchStart x <? fetchStart r) eqn:E.
    + constructor; [exact IH|].
      rewrite List.Forall_forall in *. intros y Hy.
      apply (Permutation_in _
               (Permutation_sym (insertByFetchStart_perm r l))) in Hy.
      destruct Hy as [<- | Hy]; [unfold byFetchStart; lia | now apply Hx].
    + constructor; [now constructor|].
      constructor; [unfold byFetchStart; lia|].
      rewrite List.Forall_forall in *. intros y Hy.
      specialize (Hx y Hy). unfold byFetchStart in *. lia.
Qed.

Lemma sortResources_sorted l : StronglySorted byFetchStart (sortResources l).
Proof.
  induction l as [|r l IH]; simpl; [constructor|].
  now apply insertByFetchStart_sorted.
Qed.

(** Stability: the resources of one [fetchStart] keep their order. *)
Lemma insertByFetchStart_stable k r l :
  List.filter (fun x => fetchStart x =? k) (insertByFetchStart r l)
  = List.filter (fun x => fetchStart x =? k) (r :: l).
Proof.
  induction l as [|x l IH]; [reflexivity|].
  simpl insertByFetchStart.
  destruct (fetchStart x <? fetchStart r) eqn:E; [|reflexivity].
  simpl in *. rewrite IH.
  destruct (fetchStart x =? k) eqn:Ex, (fetchStart r =? k) eqn:Er;
    try reflexivity; lia.
Qed.

Lemma sortResources_stable k l :
  List.filter (fun x => fetchStart x =? k) (sortResources l)
  = List.filter (fun x => fetchStart x =? k) l.
Proof.
  induction l as [|r l IH]; [reflexivity|].
  simpl sortResources. rewrite insertByFetchStart_stable.
  simpl. now rewrite IH.
Qed.

(** The first of the sorted candidates starts no later than any candidate. *)
Lemma sortResources_head_earliest l a rest :
  sortResources l = a :: rest ->
  forall r, In r l -> fetchStart a <= fetchStart r.
Proof.
  intros E r Hr. apply sortResources_In in Hr.
  pose proof (sortResources_sorted l) as S. rewrite E in *.
  inversion S as [|? ? _ Hall]; subst.
  destruct Hr as [<- | Hr]; [lia|].
  rewrite List.Forall_forall in Hall. now apply Hall.
Qed.

Lemma sortResources_two x y :
  sortResources [x; y]
  = if fetchStart y <? fetchStart x then [y; x] else [x; y].
Proof. reflexivity. Qed.

(** ** The filter and the choice of the main request *)

Section FilterProperties.

Variable timeInputToHrTime : Z -> HrTime.
Variable hrTimeToNanoseconds : HrTime -> Z.

Local Abbreviation matchesSpan' :=
  (matchesSpan timeInputToHrTime hrTimeToNanoseconds).
Local Abbreviation filterResourcesForSpan' :=
  (filterResourcesForSpan timeInputToHrTime hrTimeToNanoseconds).
Local Abbreviation findMainRequest' :=
  (findMainRequest timeInputToHrTime hrTimeToNanoseconds).
Local Abbreviation findMainRequest_step' :=
  (findMainRequest_step timeInputToHrTime hrTimeToNanoseconds).
(** A timestamp of an entry in nanoseconds, as the matcher compares it. *)
Local Abbreviation nanos t := (hrTimeToNanoseconds (timeInputToHrTime t)).

Lemma matchesSpan_true spanUrl startTime endTime initiatorType' r :
  matchesSpan' spanUrl startTime endTime initiatorType' r = true <->
  toLowerCase (initiatorType r) = or_else initiatorType' "xmlhttprequest"
  /\ name r = spanUrl
  /\ startTime <= nanos (fetchStart r)
  /\ nanos (responseEnd r) <= endTime.
Proof.
  unfold matchesSpan.
  rewrite !andb_true_iff, !String.eqb_eq, Z.geb_le, Z.leb_le. tauto.
Qed.

Lemma WeakSet_has_false (s : WeakSet) r :
  negb (WeakSet_has s r) = true <-> objectId r ∉ s.
Proof.
  unfold WeakSet_has. rewrite negb_true_iff. apply bool_decide_eq_false.
Qed.

(** Membership in the result of the two filters. *)
Lemma filterResourcesForSpan_In spanUrl startTimeHR endTimeHR resources
    (ignoredResources : WeakSet) initiatorType' r :
  In r (filterResourcesForSpan' spanUrl startTimeHR endTimeHR resources
          ignoredResources initiatorType')
  <->
  In r resources
  /\ matchesSpan' spanUrl (hrTimeToNanoseconds startTimeHR)
       (hrTimeToNanoseconds endTimeHR) initiatorType' r = true
  /\ objectId r ∉ ignoredResources.
Proof.
  unfold filterResourcesForSpan.
  set (fr := List.filter _ resources).
  assert (Hfr : In r fr <->
            In r resources
            /\ matchesSpan' spanUrl (hrTimeToNanoseconds startTimeHR)
                 (hrTimeToNanoseconds endTimeHR) initiatorType' r = true).
  { unfold fr. apply filter_In. }
  destruct (0 <? length fr)%nat eqn:E.
  - rewrite filter_In, WeakSet_has_false, Hfr. tauto.
  - apply Nat.ltb_ge in E. destruct fr; [|simpl in E; lia].
    simpl in *. tauto.
Qed.

(** C5: an entry is a filtered candidate exactly when it is an entry of
    the resources list whose lower-cased initiator type is the requested
    one (["xmlhttprequest"] when none is requested), whose URL is the
    normalized span URL, whose fetch-start is at or after the span start,
    whose response-end is at or before the span end, and which is not in
    the ignored set. *)
Theorem filterResourcesForSpan_characterisation
    (spanUrl : string) (startTimeHR endTimeHR : HrTime)
    (resources : list PerformanceResourceTiming)
    (ignoredResources : WeakSet) (initiatorType' : option string)
    (r : PerformanceResourceTiming) :
  In r (filterResourcesForSpan' spanUrl startTimeHR endTimeHR resources
          ignoredResources initiatorType')
  <->
  In r resources
  /\ toLowerCase (initiatorType r) = or_else initiatorType' "xmlhttprequest"
  /\ name r = spanUrl
  /\ hrTimeToNanoseconds startTimeHR <= nanos (fetchStart r)
  /\ nanos (responseEnd r) <= hrTimeToNanoseconds endTimeHR
  /\ objectId r ∉ ignoredResources.
Proof.
  rewrite filterResourcesForSpan_In, matchesSpan_true. tauto.
Qed.

(** The second filter drops nothing when the first one left nothing. *)
Lemma filterResourcesForSpan_unfold spanUrl startTimeHR endTimeHR resources
    ignoredResources initiatorType' :
  filterResourcesForSpan' spanUrl startTimeHR endTimeHR resources
    ignoredResources initiatorType'
  = List.filter (fun r => negb (WeakSet_has ignoredResources r))
      (List.filter (matchesSpan' spanUrl (hrTimeToNanoseconds startTimeHR)
                      (hrTimeToNanoseconds endTimeHR) initiatorType')
         resources).
Proof.
  unfold filterResourcesForSpan.
  destruct (List.filter (matchesSpan' _ _ _ _) resources); reflexivity.
Qed.

(** *** findMainRequest returns one of the candidates *)

Lemma findMainRequest_fold_In (P : PerformanceResourceTiming -> Prop)
    minTime spanEndTime cands :
  (forall r, In r cands -> P r) ->
  forall st m,
    (forall m0, fst st = Some m0 -> P m0) ->
    fst (fold_left (findMainRequest_step' minTime spanEndTime) cands st)
    = Some m -> P m.
Proof.
  induction cands as [|c cands IH]; intros Hc st m Hst; simpl.
  - apply Hst.
  - apply IH; [intros; apply Hc; now right|].
    destruct st as [m1 g]. unfold findMainRequest_step.
    destruct (_ && _); simpl; [|exact Hst].
    intros m0 [= <-]. apply Hc. now left.
Qed.

Lemma findMainRequest_In resources corsEnd spanEndTimeHR m :
  findMainRequest' resources corsEnd spanEndTimeHR = Some m ->
  In m resources.
Proof.
  unfold findMainRequest. intros H.
  eapply (findMainRequest_fold_In (fun r => In r resources)); [| |exact H].
  - destruct resources as [|x l]; simpl; [tauto|]. rewrite drop_0. tauto.
  - simpl. intros m0 H0. apply list_elem_of_In.
    eapply list_elem_of_lookup_2, H0.
Qed.

(** With two candidates the loop has one turn, and the second candidate
    is the result whatever the turn does. *)
Lemma findMainRequest_two a b corsEnd spanEndTimeHR :
  findMainRequest' [a; b] corsEnd spanEndTimeHR = Some b.
Proof.
  unfold findMainRequest, findMainRequest_step. simpl.
  destruct (_ && _); reflexivity.
Qed.

(** *** The least gap *)

Local Abbreviation startsAfter' :=
  (startsAfter timeInputToHrTime hrTimeToNanoseconds).
Local Abbreviation gapToSpanEnd' :=
  (gapToSpanEnd timeInputToHrTime hrTimeToNanoseconds).
Local Abbreviation firstLeastGap' :=
  (firstLeastGap timeInputToHrTime hrTimeToNanoseconds).

Lemma findMainRequest_step_skips minTime spanEndTime st c :
  ~ startsAfter' minTime c ->
  findMainRequest_step' minTime spanEndTime st c = st.
Proof.
  unfold startsAfter, findMainRequest_step. intros H. destruct st as [m g].
  destruct (Z.geb_spec (nanos (fetchStart c)) minTime); [lia | reflexivity].
Qed.

Lemma findMainRequest_step_takes minTime spanEndTime m g c :
  startsAfter' minTime c ->
  findMainRequest_step' minTime spanEndTime (m, g) c
  = if notTruthy g || ltGap (gapToSpanEnd' spanEndTime c) g
    then (Some c, Some (gapToSpanEnd' spanEndTime c))
    else (m, g).
Proof.
  unfold startsAfter, findMainRequest_step, gapToSpanEnd. intros H.
  destruct (Z.geb_spec (nanos (fetchStart c)) minTime); [reflexivity | lia].
Qed.

(** The loop, when no candidate that starts at or after [minTime] has gap
    [0]: its state is the initial one as long as no such candidate was
    met, and then holds the first candidate of least gap met so far. *)
Lemma findMainRequest_fold_least minTime spanEndTime init cands :
  (forall r, In r cands -> startsAfter' minTime r ->
             gapToSpanEnd' spanEndTime r <> 0) ->
  let st := fold_left (findMainRequest_step' minTime spanEndTime) cands
              (init, None) in
  ((forall r, In r cands -> ~ startsAfter' minTime r) /\ st = (init, None))
  \/ (exists i m, firstLeastGap' minTime spanEndTime cands i m
                  /\ st = (Some m, Some (gapToSpanEnd' spanEndTime m))).
Proof.
  induction cands as [|c l IH] using rev_ind; intros Hnz; simpl.
  { left. split; [intros r []|reflexivity]. }
  rewrite fold_left_app. simpl.
  assert (Hl : forall r, In r l -> startsAfter' minTime r ->
                         gapToSpanEnd' spanEndTime r <> 0).
  { intros r Hr. apply Hnz, in_or_app. now left. }
  assert (Hc : startsAfter' minTime c -> gapToSpanEnd' spanEndTime c <> 0).
  { apply Hnz, in_or_app. right. now left. }
  destruct (Z_le_dec minTime (nanos (fetchStart c))) as [Ec|Ec].
  - (* the new candidate starts after the preflight *)
    destruct (IH Hl) as [[Hnone ->] | (i & m & (Hi & Hm & Hmin) & ->)].
    + right. exists (length l), c.
      rewrite findMainRequest_step_takes by exact Ec. simpl.
      split; [|reflexivity]. split; [|split; [exact Ec|]].
      * apply lookup_snoc_Some. right. split; reflexivity.
      * intros j r Hj Hr. apply lookup_snoc_Some in Hj.
        destruct Hj as [[_ Hj] | [-> <-]]; [|split; [lia|reflexivity]].
        exfalso. apply (Hnone r); [|exact Hr].
        apply list_elem_of_In. eapply list_elem_of_lookup_2, Hj.
    + right. rewrite findMainRequest_step_takes by exact Ec.
      assert (Hmnz : gapToSpanEnd' spanEndTime m <> 0).
      { apply Hl; [|exact Hm].
        apply list_elem_of_In. eapply list_elem_of_lookup_2, Hi. }
      simpl. destruct (Z.eqb_spec (gapToSpanEnd' spanEndTime m) 0) as [|_];
        [contradiction|]. simpl.
      pose proof (lookup_lt_Some _ _ _ Hi) as Hilen.
      destruct (Z.ltb_spec (gapToSpanEnd' spanEndTime c)
                           (gapToSpanEnd' spanEndTime m)) as [Hlt|Hge].
      * exists (length l), c. split; [|reflexivity].
        split; [|split; [exact Ec|]].
        { apply lookup_snoc_Some. right. split; reflexivity. }
        intros j r Hj Hr. apply lookup_snoc_Some in Hj.
        destruct Hj as [[_ Hj] | [-> <-]]; [|split; [lia|reflexivity]].
        destruct (Hmin j r Hj Hr) as [Hle _]. split; lia.
      * exists i, m. split; [|reflexivity].
        split; [|split; [exact Hm|]].
        { apply lookup_snoc_Some. left. split; assumption. }
        intros j r Hj Hr. apply lookup_snoc_Some in Hj.
        destruct Hj as [[_ Hj] | [-> <-]]; [now apply Hmin|].
        split; [lia|]. intros _. lia.
  - (* the new candidate is skipped *)
    rewrite findMainRequest_step_skips by exact Ec.
    destruct (IH Hl) as [[Hnone ->] | (i & m & (Hi & Hm & Hmin) & ->)].
    + left. split; [|reflexivity]. intros r Hr.
      apply in_app_or in Hr. destruct Hr as [Hr | [<- | []]];
        [now apply Hnone | exact Ec].
    + right. exists i, m. split; [|reflexivity].
      pose proof (lookup_lt_Some _ _ _ Hi) as Hilen.
      split; [|split; [exact Hm|]].
      { apply lookup_snoc_Some. left. split; assumption. }
      intros j r Hj Hr. apply lookup_snoc_Some in Hj.
      destruct Hj as [[_ Hj] | [-> <-]]; [now apply Hmin|].
      contradiction.
Qed.

(** When no candidate after the first that starts at or after the end of
    the preflight has gap [0], and there is such a candidate,
    [findMainRequest] returns the first one of least gap. *)
Lemma findMainRequest_least_gap resources corsEnd spanEndTimeHR r0 :
  let minTime := nanos corsEnd in
  let spanEndTime := hrTimeToNanoseconds spanEndTimeHR in
  (forall r, In r (drop 1 resources) -> startsAfter' minTime r ->
             gapToSpanEnd' spanEndTime r <> 0) ->
  In r0 (drop 1 resources) -> startsAfter' minTime r0 ->
  exists i m,
    findMainRequest' resources corsEnd spanEndTimeHR = Some m
    /\ firstLeastGap' minTime spanEndTime (drop 1 resources) i m.
Proof.
  intros minTime spanEndTime Hnz Hin Hr0. unfold findMainRequest.
  destruct (findMainRequest_fold_least minTime spanEndTime
              (resources !! 1%nat) (drop 1 resources) Hnz)
    as [[Hnone _] | (i & m & Hleast & Hst)].
  - exfalso. exact (Hnone r0 Hin Hr0).
  - exists i, m. fold minTime spanEndTime. rewrite Hst.
    split; [reflexivity|exact Hleast].
Qed.

(** A recorded gap of [0] does not survive: of two candidates that both
    start at or after the end of the preflight, the second replaces the
    first when the first ends with the span, whatever its own gap is. *)
Lemma findMainRequest_replaces_zero_gap p c1 c2 corsEnd spanEndTimeHR :
  startsAfter' (nanos corsEnd) c1 ->
  startsAfter' (nanos corsEnd) c2 ->
  gapToSpanEnd' (hrTimeToNanoseconds spanEndTimeHR) c1 = 0 ->
  findMainRequest' [p; c1; c2] corsEnd spanEndTimeHR = Some c2.
Proof.
  intros H1 H2 Hzero. unfold findMainRequest.
  cbn [drop fold_left lookup list_lookup].
  rewrite (findMainRequest_step_takes _ _ _ _ _ H1).
  cbn [notTruthy orb].
  rewrite (findMainRequest_step_takes _ _ _ _ _ H2), Hzero. reflexivity.
Qed.

(** *** The case of the initiator type *)

(** C10: the filter lower-cases the initiator type of the resource and
    compares it with the requested one as it is.  A resource whose
    initiator type is ["xmlhttprequest"] up to the case of its letters
    passes the default filter when it passes the other tests; with a
    requested initiator type that contains an upper-case letter the
    filter keeps no resource, whatever the resources are. *)
Theorem filterResourcesForSpan_initiatorType_case
    (spanUrl : string) (startTimeHR endTimeHR : HrTime)
    (resources : list PerformanceResourceTiming)
    (ignoredResources : WeakSet) (r : PerformanceResourceTiming)
    (supplied : string)
    (spanUrl2 : string) (startTimeHR2 endTimeHR2 : HrTime)
    (resources2 : list PerformanceResourceTiming)
    (ignoredResources2 : WeakSet) :
  In r resources ->
  differsOnlyInCase (initiatorType r) "xmlhttprequest" ->
  name r = spanUrl ->
  hrTimeToNanoseconds startTimeHR <= nanos (fetchStart r) ->
  nanos (responseEnd r) <= hrTimeToNanoseconds endTimeHR ->
  objectId r ∉ ignoredResources ->
  hasUpperCase supplied = true ->
  In r (filterResourcesForSpan' spanUrl startTimeHR endTimeHR resources
          ignoredResources None)
  /\ filterResourcesForSpan' spanUrl2 startTimeHR2 endTimeHR2 resources2
       ignoredResources2 (Some supplied) = [].
Proof.
  intros Hin Hcase Hname Hstart Hend Hign Hup. split.
  - apply filterResourcesForSpan_In. rewrite matchesSpan_true.
    apply differsOnlyInCase_toLowerCase in Hcase.
    simpl in *. tauto.
  - destruct (filterResourcesForSpan' _ _ _ _ _ _) as [|c l] eqn:E;
      [reflexivity|exfalso].
    assert (Hc : In c (c :: l)) by now left.
    rewrite <- E in Hc.
    apply filterResourcesForSpan_In in Hc.
    destruct Hc as (_ & Hc & _). apply matchesSpan_true in Hc.
    destruct Hc as (Hlow & _).
    rewrite (or_else_supplied _ _ Hup) in Hlow.
    rewrite <- Hlow, hasUpperCase_toLowerCase in Hup. discriminate.
Qed.

End FilterProperties.

(** ** getResource *)

Section GetResourceProperties.

Variable URL : option (string -> option string -> option URLLike).
Variable document_baseURI : option string.
Variable location : option Location.
Variable anchorWithHref : string -> URLLike.
Variable timeInputToHrTime : Z -> HrTime.
Variable hrTimeToNanoseconds : HrTime -> Z.

Local Abbreviation parseUrl' :=
  (parseUrl URL document_baseURI location anchorWithHref).
Local Abbreviation filterResourcesForSpan' :=
  (filterResourcesForSpan timeInputToHrTime hrTimeToNanoseconds).
Local Abbreviation findMainRequest' :=
  (findMainRequest timeInputToHrTime hrTimeToNanoseconds).
Local Abbreviation getResource' :=
  (getResource URL document_baseURI location anchorWithHref
               timeInputToHrTime hrTimeToNanoseconds).

Lemma lookup_0_In (l : list PerformanceResourceTiming) r :
  l !! 0%nat = Some r -> In r l.
Proof. destruct l; simpl; [discriminate|]. intros [= ->]. now left. Qed.

(** Every entry [getResource] returns is a filtered candidate. *)
Lemma getResource_returns_candidates spanUrl startTimeHR endTimeHR resources
    ignoredResources initiatorType' parsed info r :
  parseUrl' spanUrl = Some parsed ->
  getResource' spanUrl startTimeHR endTimeHR resources ignoredResources
    initiatorType' = Some info ->
  mainRequest info = Some r \/ corsPreFlightRequest info = Some r ->
  In r (filterResourcesForSpan' (href parsed) startTimeHR endTimeHR
          resources (default ∅ ignoredResources) initiatorType').
Proof.
  intros Hp. unfold getResource. rewrite Hp. simpl.
  set (fr := filterResourcesForSpan' _ _ _ _ _ _).
  destruct (length fr =? 0)%nat.
  { intros [= <-]. simpl. intros [H|H]; discriminate. }
  destruct (length fr =? 1)%nat.
  { intros [= <-]. simpl.
    intros [H|H]; [now apply lookup_0_In | discriminate]. }
  destruct (_ && _).
  - destruct (sortResources fr !! 0%nat) as [c|] eqn:Ec; simpl; [|discriminate].
    destruct (findMainRequest' _ _ _) as [m|] eqn:Em; simpl; [|discriminate].
    apply lookup_0_In in Ec. apply -> sortResources_In in Ec.
    apply findMainRequest_In in Em. apply -> sortResources_In in Em.
    destruct (_ <? _); intros [= <-]; simpl; intros [H|H];
      try discriminate; injection H as <-; assumption.
  - intros [= <-]. simpl. intros [H|H]; [now apply lookup_0_In | discriminate].
Qed.

(** C6: an entry that is in [ignoredResources] when [getResource] is
    called is returned neither as [mainRequest] nor as
    [corsPreFlightRequest]. *)
Theorem getResource_never_returns_ignored
    (spanUrl : string) (startTimeHR endTimeHR : HrTime)
    (resources : list PerformanceResourceTiming)
    (ignoredResources : option WeakSet) (initiatorType' : option string)
    (info : PerformanceResourceTimingInfo) (r : PerformanceResourceTiming) :
  objectId r ∈ default ∅ ignoredResources ->
  getResource' spanUrl startTimeHR endTimeHR resources ignoredResources
    initiatorType' = Some info ->
  mainRequest info <> Some r /\ corsPreFlightRequest info <> Some r.
Proof.
  intros Hin Hres.
  destruct (parseUrl' spanUrl) as [parsed|] eqn:Hp.
  - assert (Hno : ~ (mainRequest info = Some r
                     \/ corsPreFlightRequest info = Some r)).
    { intros H.
      apply (getResource_returns_candidates _ _ _ _ _ _ _ _ _ Hp Hres) in H.
      apply filterResourcesForSpan_In in H. tauto. }
    tauto.
  - unfold getResource in Hres. rewrite Hp in Hres. discriminate.
Qed.

(** *** Two candidates *)

Lemma sortResources_earlier_later x y :
  sortResources [x; y] = [earlier x y; later x y].
Proof.
  rewrite sortResources_two. unfold earlier, later.
  destruct (_ <? _); reflexivity.
Qed.

Lemma getResource_two_cross_origin spanUrl startTimeHR endTimeHR resources
    ignoredResources initiatorType' parsed x y :
  parseUrl' spanUrl = Some parsed ->
  filterResourcesForSpan' (href parsed) startTimeHR endTimeHR resources
    (default ∅ ignoredResources) initiatorType' = [x; y] ->
  Some (origin parsed) <> getOrigin location ->
  getResource' spanUrl startTimeHR endTimeHR resources ignoredResources
    initiatorType'
  = if fetchStart (later x y) <? responseEnd (earlier x y)
    then Some {| corsPreFlightRequest := None;
                 mainRequest := Some (earlier x y) |}
    else Some {| corsPreFlightRequest := Some (earlier x y);
                 mainRequest := Some (later x y) |}.
Proof.
  intros Hp Hf Ho. unfold getResource. rewrite Hp. simpl. rewrite Hf.
  cbn [length Nat.eqb]. rewrite sortResources_earlier_later.
  rewrite bool_decide_eq_true_2 by exact Ho.
  cbn [length Nat.ltb Nat.leb andb lookup list_lookup mbind option_bind].
  rewrite findMainRequest_two. reflexivity.
Qed.

(** C2: two filtered candidates, span origin other than the page's, and
    the later candidate starts at or after the end of the earlier one:
    the earlier one is the [corsPreFlightRequest] and the later one the
    [mainRequest]. *)
Theorem getResource_two_cross_origin_sequential
    (spanUrl : string) (startTimeHR endTimeHR : HrTime)
    (resources : list PerformanceResourceTiming)
    (ignoredResources : option WeakSet) (initiatorType' : option string)
    (parsed : URLLike) (x y : PerformanceResourceTiming) :
  parseUrl' spanUrl = Some parsed ->
  filterResourcesForSpan' (href parsed) startTimeHR endTimeHR resources
    (default ∅ ignoredResources) initiatorType' = [x; y] ->
  Some (origin parsed) <> getOrigin location ->
  responseEnd (earlier x y) <= fetchStart (later x y) ->
  getResource' spanUrl startTimeHR endTimeHR resources ignoredResources
    initiatorType'
  = Some {| corsPreFlightRequest := Some (earlier x y);
            mainRequest := Some (later x y) |}.
Proof.
  intros Hp Hf Ho Hseq.
  rewrite (getResource_two_cross_origin _ _ _ _ _ _ _ _ _ Hp Hf Ho).
  destruct (Z.ltb_spec (fetchStart (later x y)) (responseEnd (earlier x y)));
    [lia | reflexivity].
Qed.

(** C4: two filtered candidates, span origin other than the page's, and
    the main request that [findMainRequest] selects (the later candidate)
    starts before the end of the earlier one: the result has the earlier
    candidate as [mainRequest] and no [corsPreFlightRequest]. *)
Theorem getResource_two_cross_origin_overlapping
    (spanUrl : string) (startTimeHR endTimeHR : HrTime)
    (resources : list PerformanceResourceTiming)
    (ignoredResources : option WeakSet) (initiatorType' : option string)
    (parsed : URLLike) (x y selected : PerformanceResourceTiming) :
  parseUrl' spanUrl = Some parsed ->
  filterResourcesForSpan' (href parsed) startTimeHR endTimeHR resources
    (default ∅ ignoredResources) initiatorType' = [x; y] ->
  Some (origin parsed) <> getOrigin location ->
  findMainRequest' (sortResources [x; y]) (responseEnd (earlier x y))
    endTimeHR = Some selected ->
  fetchStart selected < responseEnd (earlier x y) ->
  selected = later x y
  /\ getResource' spanUrl startTimeHR endTimeHR resources ignoredResources
       initiatorType'
     = Some {| corsPreFlightRequest := None;
               mainRequest := Some (earlier x y) |}.
Proof.
  intros Hp Hf Ho Hsel Hlt.
  rewrite sortResources_earlier_later, findMainRequest_two in Hsel.
  injection Hsel as <-. split; [reflexivity|].
  rewrite (getResource_two_cross_origin _ _ _ _ _ _ _ _ _ Hp Hf Ho).
  destruct (Z.ltb_spec (fetchStart (later x y)) (responseEnd (earlier x y)));
    [reflexivity | lia].
Qed.

(** *** Same origin *)

(** With the origin of the page and two or more candidates, the result is
    the first candidate in the order of the resources list. *)
Lemma getResource_same_origin spanUrl startTimeHR endTimeHR resources
    ignoredResources initiatorType' parsed x y rest :
  parseUrl' spanUrl = Some parsed ->
  filterResourcesForSpan' (href parsed) startTimeHR endTimeHR resources
    (default ∅ ignoredResources) initiatorType' = x :: y :: rest ->
  Some (origin parsed) = getOrigin location ->
  getResource' spanUrl startTimeHR endTimeHR resources ignoredResources
    initiatorType'
  = Some {| corsPreFlightRequest := None; mainRequest := Some x |}.
Proof.
  intros Hp Hf Ho. unfold getResource. rewrite Hp. simpl. rewrite Hf.
  cbn [length Nat.eqb].
  rewrite bool_decide_eq_false_2 by (intros H; now apply H).
  reflexivity.
Qed.

End GetResourceProperties.

(** ** The matcher in the browser of the examples *)

Section MatcherExamples.

Import Example.

Lemma getResource_two_cross_origin_sequential_witness :
  filterResourcesForSpan timeInputToHrTime hrTimeToNanoseconds bar
    spanStart spanEnd [xhr 1 bar 4 9; xhr 2 bar 0 1] ∅ None
  = [xhr 1 bar 4 9; xhr 2 bar 0 1]
  /\ Example.getResource bar spanStart spanEnd
       [xhr 1 bar 4 9; xhr 2 bar 0 1] None None
     = Some {| corsPreFlightRequest := Some (xhr 2 bar 0 1);
               mainRequest := Some (xhr 1 bar 4 9) |}.
Proof.
  split; [vm_compute; reflexivity|].
  apply (getResource_two_cross_origin_sequential
           (Some newURL) (Some (location_href page)) (Some page) anchor
           timeInputToHrTime hrTimeToNanoseconds
           bar spanStart spanEnd [xhr 1 bar 4 9; xhr 2 bar 0 1]
           None None parsedBar (xhr 1 bar 4 9) (xhr 2 bar 0 1)).
  - reflexivity.
  - vm_compute; reflexivity.
  - discriminate.
  - vm_compute; discriminate.
Defined.

Lemma getResource_two_cross_origin_overlapping_witness :
  filterResourcesForSpan timeInputToHrTime hrTimeToNanoseconds bar
    spanStart spanEnd [xhr 1 bar 0 5; xhr 2 bar 2 9] ∅ None
  = [xhr 1 bar 0 5; xhr 2 bar 2 9]
  /\ xhr 2 bar 2 9 = later (xhr 1 bar 0 5) (xhr 2 bar 2 9)
  /\ Example.getResource bar spanStart spanEnd
       [xhr 1 bar 0 5; xhr 2 bar 2 9] None None
     = Some {| corsPreFlightRequest := None;
               mainRequest := Some (xhr 1 bar 0 5) |}.
Proof.
  split; [vm_compute; reflexivity|].
  apply (getResource_two_cross_origin_overlapping
           (Some newURL) (Some (location_href page)) (Some page) anchor
           timeInputToHrTime hrTimeToNanoseconds
           bar spanStart spanEnd [xhr 1 bar 0 5; xhr 2 bar 2 9]
           None None parsedBar (xhr 1 bar 0 5) (xhr 2 bar 2 9)
           (xhr 2 bar 2 9)).
  - reflexivity.
  - vm_compute; reflexivity.
  - discriminate.
  - vm_compute; reflexivity.
  - vm_compute; reflexivity.
Defined.

Lemma getResource_never_returns_ignored_witness :
  Example.getResource foo spanStart spanEnd
    [xhr 1 foo 0 5; xhr 2 foo 2 9] (Some {[1%positive]}) None
  = Some {| corsPreFlightRequest := None;
            mainRequest := Some (xhr 2 foo 2 9) |}
  /\ mainRequest {| corsPreFlightRequest := None;
                    mainRequest := Some (xhr 2 foo 2 9) |}
     <> Some (xhr 1 foo 0 5)
  /\ corsPreFlightRequest {| corsPreFlightRequest := None;
                             mainRequest := Some (xhr 2 foo 2 9) |}
     <> Some (xhr 1 foo 0 5).
Proof.
  split; [vm_compute; reflexivity|].
  apply (getResource_never_returns_ignored
           (Some newURL) (Some (location_href page)) (Some page) anchor
           timeInputToHrTime hrTimeToNanoseconds
           foo spanStart spanEnd [xhr 1 foo 0 5; xhr 2 foo 2 9]
           (Some {[1%positive]}) None).
  - simpl. apply elem_of_singleton. reflexivity.
  - vm_compute; reflexivity.
Defined.

Lemma filterResourcesForSpan_initiatorType_case_witness :
  In mixedCase
     (filterResourcesForSpan timeInputToHrTime hrTimeToNanoseconds foo
        spanStart spanEnd [mixedCase] ∅ None)
  /\ filterResourcesForSpan timeInputToHrTime hrTimeToNanoseconds foo
       spanStart spanEnd [mixedCase] ∅ (Some "XMLHttpRequest") = [].
Proof.
  apply (filterResourcesForSpan_initiatorType_case
           timeInputToHrTime hrTimeToNanoseconds
           foo spanStart spanEnd [mixedCase] ∅ mixedCase
           "XMLHttpRequest" foo spanStart spanEnd [mixedCase] ∅).
  - now left.
  - repeat (first [ apply doic_nil | apply doic_cons; [same_letter|] ]).
  - reflexivity.
  - vm_compute; discriminate.
  - vm_compute; discriminate.
  - apply not_elem_of_empty.
  - reflexivity.
Defined.

(** C1: with the origin of the page and two candidates that the buffer
    lists in the order of their completion, [getResource] returns the
    first candidate of the buffer, which started last; the sort puts the
    other candidate first. *)
Theorem getResource_same_origin_first_of_buffer :
  filterResourcesForSpan timeInputToHrTime hrTimeToNanoseconds foo
    spanStart spanEnd [startedLast; startedFirst] ∅ None
  = [startedLast; startedFirst]
  /\ Some (origin (anchor foo)) = getOrigin (Some page)
  /\ sortResources [startedLast; startedFirst] = [startedFirst; startedLast]
  /\ Example.getResource foo spanStart spanEnd [startedLast; startedFirst]
       None None
     = Some {| corsPreFlightRequest := None;
               mainRequest := Some startedLast |}.
Proof. vm_compute. repeat split; reflexivity. Qed.

(** C3: three candidates of another origin; the second ends with the
    span (gap 0) and the third a millisecond before it (gap 1000000 ns),
    both start after the end of the first.  [findMainRequest] returns the
    third: the gap 0 it recorded for the second counts as no gap
    recorded. *)
Theorem findMainRequest_zero_gap_replaced :
  startsAfter timeInputToHrTime hrTimeToNanoseconds
    (hrTimeToNanoseconds (timeInputToHrTime (responseEnd preflight)))
    endsWithSpan
  /\ startsAfter timeInputToHrTime hrTimeToNanoseconds
       (hrTimeToNanoseconds (timeInputToHrTime (responseEnd preflight)))
       endsBefore
  /\ gapToSpanEnd timeInputToHrTime hrTimeToNanoseconds
       (hrTimeToNanoseconds spanEnd) endsWithSpan = 0
  /\ gapToSpanEnd timeInputToHrTime hrTimeToNanoseconds
       (hrTimeToNanoseconds spanEnd) endsBefore = 1000000
  /\ findMainRequest timeInputToHrTime hrTimeToNanoseconds
       [preflight; endsWithSpan; endsBefore] (responseEnd preflight) spanEnd
     = Some endsBefore
  /\ Example.getResource bar spanStart spanEnd
       [preflight; endsWithSpan; endsBefore] None None
     = Some {| corsPreFlightRequest := Some preflight;
               mainRequest := Some endsBefore |}.
Proof.
  repeat split; try (vm_compute; reflexivity); vm_compute; discriminate.
Qed.

End MatcherExamples.

(** ** The span enricher *)

Lemma numberAt (entries : PerformanceEntries) (key : string) :
  (if hasKey entries key && typeofNumber (getProp entries key)
   then getProp entries key else JUndefined)
  = match entries !! key with
    | Some (JNumber n) => JNumber n
    | _ => JUndefined
    end.
Proof.
  unfold hasKey, getProp.
  destruct (entries !! key) as [[]|]; reflexivity.
Qed.

(** [addSpanNetworkEvent] ends normally, and what it calls on the span is
    at most the one [addEvent] of the milestone. *)
Lemma addSpanNetworkEvent_shape performanceName (entries : PerformanceEntries)
    refPerfName :
  exists l b,
    addSpanNetworkEvent performanceName entries refPerfName = (l, Normal b)
    /\ forall c, In c l <->
         exists t r,
           c = AddEvent performanceName t
           /\ entries !! performanceName = Some (JNumber t)
           /\ entries !! or_else refPerfName PTN.FETCH_START
              = Some (JNumber r)
           /\ r <= t.
Proof.
  unfold addSpanNetworkEvent. rewrite !numberAt.
  set (refName := or_else refPerfName PTN.FETCH_START).
  destruct (entries !! performanceName) as [[| | |t|]|] eqn:Ep;
    try (exists [], false; split; [now destruct (entries !! refName) as [[]|]|];
         intros c; split; [intros [] | intros (? & ? & _ & [=] & _)]).
  destruct (entries !! refName) as [[| | |r|]|] eqn:Er;
    try (exists [], false; split; [reflexivity|];
         intros c; split; [intros [] | intros (? & ? & _ & _ & [=] & _)]).
  destruct (Z.geb_spec t r) as [Hge|Hlt].
  - exists [AddEvent performanceName t], true. split; [reflexivity|].
    intros c; split.
    + intros [<- | []]. exists t, r. repeat split; try assumption; lia.
    + intros (t' & r' & -> & [= <-] & _). now left.
  - exists [], false. split; [reflexivity|].
    intros c; split;
      [intros [] | intros (t' & r' & _ & [= <-] & [= <-] & ?); lia].
Qed.

(** C7: [addSpanNetworkEvent] calls [addEvent] exactly when the milestone
    is in the entry with a number, the reference (fetch-start unless one is
    named) is in the entry with a number, and the milestone is not before
    the reference; the event carries the milestone and its time.  Hence
    every event [addSpanNetworkEvents] puts on the span has the time of its
    milestone, not before the fetch-start of the entry. *)
Theorem addSpanNetworkEvent_not_before_reference
    (performanceName : string) (entries : PerformanceEntries)
    (refPerfName : option string) :
  (forall c,
     In c (calls (addSpanNetworkEvent performanceName entries refPerfName))
     <->
     exists t r,
       c = AddEvent performanceName t
       /\ entries !! performanceName = Some (JNumber t)
       /\ entries !! or_else refPerfName PTN.FETCH_START = Some (JNumber r)
       /\ r <= t)
  /\ (forall eventName t,
        In (AddEvent eventName t) (calls (addSpanNetworkEvents entries)) ->
        exists r,
          entries !! eventName = Some (JNumber t)
          /\ entries !! PTN.FETCH_START = Some (JNumber r)
          /\ r <= t).
Proof.
  split.
  - destruct (addSpanNetworkEvent_shape performanceName entries refPerfName)
      as (l & b & -> & Hl). exact Hl.
  - intros eventName t. unfold addSpanNetworkEvents.
    repeat match goal with
      | |- context [addSpanNetworkEvent ?n entries None] =>
          let l := fresh "l" in
          let H := fresh "Hl" in
          destruct (addSpanNetworkEvent_shape n entries None)
            as (l & ? & -> & H)
      end.
    assert (Hev : forall n evs,
              (forall c, In c evs <->
                 exists t0 r,
                   c = AddEvent n t0
                   /\ entries !! n = Some (JNumber t0)
                   /\ entries !! or_else None PTN.FETCH_START
                      = Some (JNumber r)
                   /\ r <= t0) ->
              In (AddEvent eventName t) evs ->
              exists r,
                entries !! eventName = Some (JNumber t)
                /\ entries !! PTN.FETCH_START = Some (JNumber r)
                /\ r <= t).
    { intros n evs H Hin. apply H in Hin.
      destruct Hin as (t0 & r & [= -> ->] & Ht & Hr & Hle). eauto. }
    unfold hasKey, getProp.
    destruct (entries !! "name") as [[| | | |s]|];
      cbn -[In String.prefix];
      try destruct (String.prefix "https:" s); cbn -[In];
      repeat match goal with
        | |- context [if ?b then _ else _] => destruct b; cbn -[In]
        end;
      rewrite ?in_app_iff; cbn [In];
      intros Hin; decompose [or] Hin; clear Hin;
      try contradiction; try discriminate; eauto.
Qed.

(** C8: on an entry whose [name], when it has one, is a string,
    [addSpanNetworkEvents] ends normally; it sets the
    response-content-length attribute, to the encoded body size, exactly
    when the entry has an encoded body size, and the uncompressed
    content-length attribute, to the decoded body size, exactly when the
    entry has a decoded body size that is not the encoded one; it sets no
    other attribute. *)
Theorem addSpanNetworkEvents_content_length (resource : PerformanceEntries) :
  (resource !! "name" = None
   \/ exists s, resource !! "name" = Some (JString s)) ->
  let encodedLength := getProp resource PTN.ENCODED_BODY_SIZE in
  let decodedLength := getProp resource PTN.DECODED_BODY_SIZE in
  completion (addSpanNetworkEvents resource) = Normal tt
  /\ (forall key value,
        In (SetAttribute key value) (calls (addSpanNetworkEvents resource))
        <->
        (key = SEMATTRS_HTTP_RESPONSE_CONTENT_LENGTH
         /\ value = encodedLength /\ encodedLength <> JUndefined)
        \/ (key = SEMATTRS_HTTP_RESPONSE_CONTENT_LENGTH_UNCOMPRESSED
            /\ value = decodedLength /\ decodedLength <> JUndefined
            /\ encodedLength <> decodedLength)).
Proof.
  intros Hname encodedLength decodedLength.
  assert (Hdef : forall v, isDefined v = true <-> v <> JUndefined).
  { intros []; simpl; split; congruence. }
  assert (Hne : strictNotEqual encodedLength decodedLength = true
                <-> encodedLength <> decodedLength).
  { apply bool_decide_eq_true. }
  unfold addSpanNetworkEvents. cbv zeta. fold encodedLength decodedLength.
  repeat match goal with
    | |- context [addSpanNetworkEvent ?n resource None] =>
        let l := fresh "l" in
        let H := fresh "Hl" in
        destruct (addSpanNetworkEvent_shape n resource None)
          as (l & ? & -> & H)
    end.
  assert (Hev : forall n evs key value,
            (forall c, In c evs <->
               exists t0 r,
                 c = AddEvent n t0
                 /\ resource !! n = Some (JNumber t0)
                 /\ resource !! or_else None PTN.FETCH_START
                    = Some (JNumber r)
                 /\ r <= t0) ->
            ~ In (SetAttribute key value) evs).
  { intros n evs key value H Hin. apply H in Hin.
    destruct Hin as (t0 & r & [=] & _). }
  destruct (isDefined encodedLength) eqn:Ee;
    destruct (isDefined decodedLength) eqn:Ed;
    destruct (strictNotEqual encodedLength decodedLength) eqn:Es;
    unfold hasKey, getProp;
    destruct Hname as [-> | [s ->]];
    cbn -[In String.prefix];
    try destruct (String.prefix "https:" s); cbn -[In];
    (split; [reflexivity|]);
    intros key value; rewrite ?in_app_iff; cbn [In];
    rewrite <- ?Hdef, <- ?Hne, ?Ee, ?Ed;
    (split;
     [ intros Hin; decompose [or] Hin; clear Hin;
       try contradiction;
       try (exfalso; eapply Hev; [|eassumption]; eassumption);
       match goal with
       | H : SetAttribute _ _ = SetAttribute _ _ |- _ =>
           injection H as <- <-; auto
       end
     | intros [(-> & -> & ?) | (-> & -> & ? & ?)];
       try discriminate; auto 20 ]).
Qed.

(** The examples of the spec: equal sizes leave the uncompressed length
    unset, different sizes set it to the decoded size. *)
Example addSpanNetworkEvents_uncompressed :
  calls (addSpanNetworkEvents Example.uncompressed)
  = [AddEvent "fetchStart" 5; AddEvent "responseEnd" 9;
     SetAttribute SEMATTRS_HTTP_RESPONSE_CONTENT_LENGTH (JNumber 120)].
Proof. vm_compute. reflexivity. Qed.

Example addSpanNetworkEvents_compressed :
  calls (addSpanNetworkEvents Example.compressed)
  = [AddEvent "fetchStart" 5; AddEvent "responseEnd" 9;
     SetAttribute SEMATTRS_HTTP_RESPONSE_CONTENT_LENGTH (JNumber 120);
     SetAttribute SEMATTRS_HTTP_RESPONSE_CONTENT_LENGTH_UNCOMPRESSED
       (JNumber 340)].
Proof. vm_compute. reflexivity. Qed.

Lemma addSpanNetworkEvents_content_length_witness :
  Example.compressed !! "name" = Some (JString "https://foo.com/bar.json")
  /\ completion (addSpanNetworkEvents Example.compressed) = Normal tt
  /\ (forall key value,
        In (SetAttribute key value)
           (calls (addSpanNetworkEvents Example.compressed))
        <->
        (key = SEMATTRS_HTTP_RESPONSE_CONTENT_LENGTH
         /\ value = getProp Example.compressed PTN.ENCODED_BODY_SIZE
         /\ getProp Example.compressed PTN.ENCODED_BODY_SIZE <> JUndefined)
        \/ (key = SEMATTRS_HTTP_RESPONSE_CONTENT_LENGTH_UNCOMPRESSED
            /\ value = getProp Example.compressed PTN.DECODED_BODY_SIZE
            /\ getProp Example.compressed PTN.DECODED_BODY_SIZE <> JUndefined
            /\ getProp Example.compressed PTN.ENCODED_BODY_SIZE
               <> getProp Example.compressed PTN.DECODED_BODY_SIZE)).
Proof.
  split; [vm_compute; reflexivity|].
  apply (addSpanNetworkEvents_content_length Example.compressed).
  right. exists "https://foo.com/bar.json". vm_compute. reflexivity.
Defined.

(** ** getXHRBodyLength *)

Section BodyLengthProperties.

Variable Document : Type.
Variable serializeToString : Document -> string.
Variable document : Document.
Variable DocumentDefined : bool.
Variable searchParamsToString : list (string * string) -> string.

(** On every body that is not a document, [getXHRBodyLength] gives the
    natural length; on a document it does when the document serializes
    to the length of the page's own document. *)
Lemma getXHRBodyLength_natural (body : XHRBody Document) :
  (forall d, body = BodyDocument d ->
     DocumentDefined = true
     /\ String.length (serializeToString d)
        = String.length (serializeToString document)) ->
  getXHRBodyLength Document serializeToString document DocumentDefined
    searchParamsToString body
  = naturalBodyLength Document serializeToString searchParamsToString body.
Proof.
  destruct body as [d| | | | | |]; intros H; try reflexivity.
  destruct (H d eq_refl) as [-> Hlen]. simpl.
  unfold stringLength. now rewrite Hlen.
Qed.

End BodyLengthProperties.

(** The examples of the spec: the string "hello" has length 5, an
    unrecognized body has length 0 and is reported once. *)
Example getXHRBodyLength_hello :
  Example.getXHRBodyLength (BodyString "hello") = (5, []).
Proof. reflexivity. Qed.

Example getXHRBodyLength_unknown :
  Example.getXHRBodyLength BodyUnknown = (0, ["unknown body type"]).
Proof. reflexivity. Qed.

(** C9: for a document body, the length is that of the serialization of
    the page's own [document], not of the body: on the page
    [<html></html>] the document [<p>hello</p>], of length 12, has length
    13. *)
Theorem getXHRBodyLength_document_is_page_document :
  Example.getXHRBodyLength (BodyDocument "<p>hello</p>") = (13, [])
  /\ naturalBodyLength string Example.serializeToString
       Example.searchParamsToString (BodyDocument "<p>hello</p>") = (12, [])
  /\ stringLength (Example.serializeToString Example.document) = 13.
Proof. repeat split; reflexivity. Qed.

(** * Further properties of the matcher *)

(** ** sortResources *)

(** X1: [sortResources] returns the resources it is given, each as often as
    it is given, in ascending order of fetch-start. *)
Theorem sortResources_sorted_permutation
    (filteredResources : list PerformanceResourceTiming) :
  Permutation filteredResources (sortResources filteredResources)
  /\ StronglySorted byFetchStart (sortResources filteredResources).
Proof. split; [apply sortResources_perm | apply sortResources_sorted]. Qed.

Lemma filter_app_cons_inv (f : PerformanceResourceTiming -> bool)
    l l1 a l2 b l3 :
  l = (l1 ++ a :: l2 ++ b :: l3)%list -> f a = true -> f b = true ->
  exists k1 k2 k3, List.filter f l = (k1 ++ a :: k2 ++ b :: k3)%list.
Proof.
  intros -> Ha Hb.
  rewrite List.filter_app. simpl. rewrite Ha, List.filter_app. simpl.
  rewrite Hb. eauto.
Qed.

Lemma filter_order (f : PerformanceResourceTiming -> bool)
    l k1 a k2 b k3 :
  List.filter f l = (k1 ++ a :: k2 ++ b :: k3)%list ->
  exists l1 l2 l3, l = (l1 ++ a :: l2 ++ b :: l3)%list.
Proof.
  revert k1. induction l as [|x l IH]; intros k1 H; simpl in H.
  - destruct k1; discriminate.
  - destruct (f x) eqn:Ex.
    + destruct k1 as [|y k1]; simpl in H.
      * injection H as -> H.
        assert (Hb : In b (List.filter f l)).
        { rewrite H. apply in_or_app. right. now left. }
        apply filter_In in Hb. destruct Hb as [Hb _].
        apply in_split in Hb. destruct Hb as (l2 & l3 & ->).
        exists [], l2, l3. reflexivity.
      * injection H as -> H.
        destruct (IH _ H) as (l1 & l2 & l3 & ->).
        exists (y :: l1), l2, l3. reflexivity.
    + destruct (IH _ H) as (l1 & l2 & l3 & ->).
      exists (x :: l1), l2, l3. reflexivity.
Qed.

(** X2: the sort is stable: of two resources with the same fetch-start,
    the one that comes first in the input comes first in the result. *)
Theorem sortResources_stable_order
    (filteredResources l1 l2 l3 : list PerformanceResourceTiming)
    (a b : PerformanceResourceTiming) :
  filteredResources = (l1 ++ a :: l2 ++ b :: l3)%list ->
  fetchStart a = fetchStart b ->
  exists s1 s2 s3,
    sortResources filteredResources = (s1 ++ a :: s2 ++ b :: s3)%list.
Proof.
  intros Hl Hab.
  set (f := fun x : PerformanceResourceTiming => fetchStart x =? fetchStart a).
  destruct (filter_app_cons_inv f _ _ _ _ _ _ Hl) as (k1 & k2 & k3 & Hk).
  { unfold f. apply Z.eqb_refl. }
  { unfold f. rewrite Hab. apply Z.eqb_refl. }
  apply (filter_order f _ k1 a k2 b k3).
  unfold f in *. rewrite sortResources_stable. exact Hk.
Qed.

Lemma sortResources_stable_order_witness :
  exists s1 s2 s3,
    sortResources [Example.xhr 1 Example.foo 5 6; Example.xhr 2 Example.foo 3 8;
                   Example.xhr 3 Example.foo 5 9]
    = (s1 ++ Example.xhr 1 Example.foo 5 6
          :: s2 ++ Example.xhr 3 Example.foo 5 9 :: s3)%list.
Proof.
  apply (sortResources_stable_order _ [] [Example.xhr 2 Example.foo 3 8] []);
    reflexivity.
Defined.

(** ** getResource and findMainRequest *)

Section MoreMatcherProperties.

Variable URL : option (string -> option string -> option URLLike).
Variable document_baseURI : option string.
Variable location : option Location.
Variable anchorWithHref : string -> URLLike.
Variable timeInputToHrTime : Z -> HrTime.
Variable hrTimeToNanoseconds : HrTime -> Z.

Local Abbreviation parseUrl' :=
  (parseUrl URL document_baseURI location anchorWithHref).
Local Abbreviation matchesSpan' :=
  (matchesSpan timeInputToHrTime hrTimeToNanoseconds).
Local Abbreviation filterResourcesForSpan' :=
  (filterResourcesForSpan timeInputToHrTime hrTimeToNanoseconds).
Local Abbreviation findMainRequest' :=
  (findMainRequest timeInputToHrTime hrTimeToNanoseconds).
Local Abbreviation findMainRequest_step' :=
  (findMainRequest_step timeInputToHrTime hrTimeToNanoseconds).
Local Abbreviation getResource' :=
  (getResource URL document_baseURI location anchorWithHref
               timeInputToHrTime hrTimeToNanoseconds).
Local Abbreviation startsAfter' :=
  (startsAfter timeInputToHrTime hrTimeToNanoseconds).
Local Abbreviation gapToSpanEnd' :=
  (gapToSpanEnd timeInputToHrTime hrTimeToNanoseconds).
Local Abbreviation firstLeastGap' :=
  (firstLeastGap timeInputToHrTime hrTimeToNanoseconds).
Local Abbreviation nanos t := (hrTimeToNanoseconds (timeInputToHrTime t)).

(** The loop never loses its main request. *)
Lemma findMainRequest_fold_Some minTime spanEndTime cands :
  forall st,
    is_Some (fst st) ->
    is_Some (fst (fold_left (findMainRequest_step' minTime spanEndTime)
                    cands st)).
Proof.
  induction cands as [|c cands IH]; intros st Hst; simpl; [exact Hst|].
  apply IH. destruct st as [m g]. unfold findMainRequest_step.
  destruct (_ && _); simpl; [eauto | exact Hst].
Qed.

(** On two or more resources [findMainRequest] returns one of the
    resources after the first. *)
Lemma findMainRequest_tail p c rest corsEnd spanEndTimeHR :
  exists m,
    findMainRequest' (p :: c :: rest) corsEnd spanEndTimeHR = Some m
    /\ In m (c :: rest).
Proof.
  destruct (findMainRequest_fold_Some (nanos corsEnd)
              (hrTimeToNanoseconds spanEndTimeHR) (c :: rest)
              (Some c, None)) as [m Hm]; [simpl; eauto|].
  exists m. split; [exact Hm|].
  apply (findMainRequest_fold_In timeInputToHrTime hrTimeToNanoseconds
           (fun r => In r (c :: rest)) (nanos corsEnd)
           (hrTimeToNanoseconds spanEndTimeHR) (c :: rest)
           (fun r H => H) (Some c, None) m); [|exact Hm].
  simpl. intros m0 [= <-]. now left.
Qed.

(** What [getResource] does with two or more candidates of another
    origin. *)
Lemma getResource_cross_origin_many spanUrl startTimeHR endTimeHR resources
    ignoredResources initiatorType' parsed x y rest :
  parseUrl' spanUrl = Some parsed ->
  filterResourcesForSpan' (href parsed) startTimeHR endTimeHR resources
    (default ∅ ignoredResources) initiatorType' = x :: y :: rest ->
  Some (origin parsed) <> getOrigin location ->
  exists p tl m,
    sortResources (x :: y :: rest) = p :: tl
    /\ In m tl
    /\ findMainRequest' (p :: tl) (responseEnd p) endTimeHR = Some m
    /\ getResource' spanUrl startTimeHR endTimeHR resources ignoredResources
         initiatorType'
       = if fetchStart m <? responseEnd p
         then Some {| corsPreFlightRequest := None; mainRequest := Some p |}
         else Some {| corsPreFlightRequest := Some p;
                      mainRequest := Some m |}.
Proof.
  intros Hp Hf Ho.
  pose proof (sortResources_length (x :: y :: rest)) as Hlen.
  destruct (sortResources (x :: y :: rest)) as [|p [|c tl]] eqn:Es;
    try discriminate.
  destruct (findMainRequest_tail p c tl (responseEnd p) endTimeHR)
    as (m & Hm & Hin).
  exists p, (c :: tl), m. repeat split; try assumption.
  unfold getResource. rewrite Hp. simpl. rewrite Hf.
  cbn [length Nat.eqb]. rewrite Es.
  rewrite bool_decide_eq_true_2 by exact Ho.
  cbn [length Nat.ltb Nat.leb andb lookup list_lookup mbind option_bind].
  rewrite Hm. reflexivity.
Qed.

(** X3: [getResource] ends with an exception exactly when the span URL
    does not parse; for every parsable URL it returns a result, whatever
    the resources, the ignored set and the initiator type are. *)
Theorem getResource_throws_iff_unparsable
    (spanUrl : string) (startTimeHR endTimeHR : HrTime)
    (resources : list PerformanceResourceTiming)
    (ignoredResources : option WeakSet) (initiatorType' : option string) :
  getResource' spanUrl startTimeHR endTimeHR resources ignoredResources
    initiatorType' = None
  <-> parseUrl' spanUrl = None.
Proof.
  split.
  - destruct (parseUrl' spanUrl) as [parsed|] eqn:Hp; [|reflexivity].
    intros Hnone. exfalso.
    destruct (filterResourcesForSpan' (href parsed) startTimeHR endTimeHR
                resources (default ∅ ignoredResources) initiatorType')
      as [|x [|y rest]] eqn:Hf.
    + unfold getResource in Hnone. rewrite Hp in Hnone. simpl in Hnone.
      rewrite Hf in Hnone. discriminate.
    + unfold getResource in Hnone. rewrite Hp in Hnone. simpl in Hnone.
      rewrite Hf in Hnone. discriminate.
    + destruct (decide (Some (origin parsed) = getOrigin location)) as [Ho|Ho].
      * rewrite (getResource_same_origin _ _ _ _ _ _ _ _ _ _ _ _ _ _ _ _
                   Hp Hf Ho) in Hnone. discriminate.
      * destruct (getResource_cross_origin_many _ _ _ _ _ _ _ _ _ _ Hp Hf Ho)
          as (p & tl & m & _ & _ & _ & Hg).
        rewrite Hg in Hnone. destruct (_ <? _); discriminate.
  - intros Hp. unfold getResource. rewrite Hp. reflexivity.
Qed.

(** X4: an entry that [getResource] returns, as main request or as
    preflight, is one of the resources given, has the normalized span URL
    as its name and the requested initiator type once lower-cased, starts
    and ends within the span, and is not ignored. *)
Theorem getResource_returns_matching_entries
    (spanUrl : string) (startTimeHR endTimeHR : HrTime)
    (resources : list PerformanceResourceTiming)
    (ignoredResources : option WeakSet) (initiatorType' : option string)
    (parsed : URLLike) (info : PerformanceResourceTimingInfo)
    (r : PerformanceResourceTiming) :
  parseUrl' spanUrl = Some parsed ->
  getResource' spanUrl startTimeHR endTimeHR resources ignoredResources
    initiatorType' = Some info ->
  mainRequest info = Some r \/ corsPreFlightRequest info = Some r ->
  In r resources
  /\ name r = href parsed
  /\ toLowerCase (initiatorType r) = or_else initiatorType' "xmlhttprequest"
  /\ hrTimeToNanoseconds startTimeHR <= nanos (fetchStart r)
  /\ nanos (responseEnd r) <= hrTimeToNanoseconds endTimeHR
  /\ objectId r ∉ default ∅ ignoredResources.
Proof.
  intros Hp Hg Hr.
  pose proof (getResource_returns_candidates _ _ _ _ _ _ _ _ _ _ _ _ _ _ _
                Hp Hg Hr) as Hin.
  apply filterResourcesForSpan_In in Hin.
  destruct Hin as (Hin & Hm & Hign). apply matchesSpan_true in Hm.
  tauto.
Qed.

(** X5: when [getResource] returns a preflight, the span URL has another
    origin than the page, the preflight is the first of the sorted
    candidates, and the main request is one of the sorted candidates after
    it whose fetch-start is not before the response-end of the preflight. *)
Theorem getResource_preflight_precedes_main
    (spanUrl : string) (startTimeHR endTimeHR : HrTime)
    (resources : list PerformanceResourceTiming)
    (ignoredResources : option WeakSet) (initiatorType' : option string)
    (parsed : URLLike) (info : PerformanceResourceTimingInfo)
    (p : PerformanceResourceTiming) :
  parseUrl' spanUrl = Some parsed ->
  getResource' spanUrl startTimeHR endTimeHR resources ignoredResources
    initiatorType' = Some info ->
  corsPreFlightRequest info = Some p ->
  Some (origin parsed) <> getOrigin location
  /\ exists tl m,
       sortResources
         (filterResourcesForSpan' (href parsed) startTimeHR endTimeHR
            resources (default ∅ ignoredResources) initiatorType')
       = p :: tl
       /\ In m tl
       /\ mainRequest info = Some m
       /\ responseEnd p <= fetchStart m.
Proof.
  intros Hp Hg Hc.
  destruct (filterResourcesForSpan' (href parsed) startTimeHR endTimeHR
              resources (default ∅ ignoredResources) initiatorType')
    as [|x [|y rest]] eqn:Hf.
  - unfold getResource in Hg. rewrite Hp in Hg. simpl in Hg.
    rewrite Hf in Hg. injection Hg as <-. discriminate.
  - unfold getResource in Hg. rewrite Hp in Hg. simpl in Hg.
    rewrite Hf in Hg. injection Hg as <-. discriminate.
  - destruct (decide (Some (origin parsed) = getOrigin location)) as [Ho|Ho].
    + rewrite (getResource_same_origin _ _ _ _ _ _ _ _ _ _ _ _ _ _ _ _
                 Hp Hf Ho) in Hg. injection Hg as <-. discriminate.
    + split; [exact Ho|].
      destruct (getResource_cross_origin_many _ _ _ _ _ _ _ _ _ _ Hp Hf Ho)
        as (q & tl & m & Hs & Hin & _ & Hg').
      rewrite Hg' in Hg.
      destruct (Z.ltb_spec (fetchStart m) (responseEnd q)) as [Hlt|Hge];
        injection Hg as <-; simpl in Hc; [discriminate|].
      injection Hc as <-. exists tl, m. rewrite Hs. auto.
Qed.

(** X6: for a span URL of the page's own origin, [getResource] never
    returns a preflight, and its main request is the first candidate in the
    order of the resources list ([undefined] when there is none). *)
Theorem getResource_same_origin_result
    (spanUrl : string) (startTimeHR endTimeHR : HrTime)
    (resources : list PerformanceResourceTiming)
    (ignoredResources : option WeakSet) (initiatorType' : option string)
    (parsed : URLLike) :
  parseUrl' spanUrl = Some parsed ->
  Some (origin parsed) = getOrigin location ->
  getResource' spanUrl startTimeHR endTimeHR resources ignoredResources
    initiatorType'
  = Some {| corsPreFlightRequest := None;
            mainRequest :=
              head (filterResourcesForSpan' (href parsed) startTimeHR
                      endTimeHR resources (default ∅ ignoredResources)
                      initiatorType') |}.
Proof.
  intros Hp Ho.
  destruct (filterResourcesForSpan' (href parsed) startTimeHR endTimeHR
              resources (default ∅ ignoredResources) initiatorType')
    as [|x [|y rest]] eqn:Hf.
  - unfold getResource. rewrite Hp. simpl. rewrite Hf. reflexivity.
  - unfold getResource. rewrite Hp. simpl. rewrite Hf. reflexivity.
  - apply (getResource_same_origin _ _ _ _ _ _ _ _ _ _ _ _ _ _ _ _ Hp Hf Ho).
Qed.

(** X7: the main request is [undefined] exactly when no resource passes
    the filter. *)
Theorem getResource_main_undefined_iff_no_candidate
    (spanUrl : string) (startTimeHR endTimeHR : HrTime)
    (resources : list PerformanceResourceTiming)
    (ignoredResources : option WeakSet) (initiatorType' : option string)
    (parsed : URLLike) (info : PerformanceResourceTimingInfo) :
  parseUrl' spanUrl = Some parsed ->
  getResource' spanUrl startTimeHR endTimeHR resources ignoredResources
    initiatorType' = Some info ->
  (mainRequest info = None
   <-> filterResourcesForSpan' (href parsed) startTimeHR endTimeHR resources
         (default ∅ ignoredResources) initiatorType' = []).
Proof.
  intros Hp Hg.
  destruct (filterResourcesForSpan' (href parsed) startTimeHR endTimeHR
              resources (default ∅ ignoredResources) initiatorType')
    as [|x [|y rest]] eqn:Hf.
  - unfold getResource in Hg. rewrite Hp in Hg. simpl in Hg.
    rewrite Hf in Hg. injection Hg as <-. simpl. tauto.
  - unfold getResource in Hg. rewrite Hp in Hg. simpl in Hg.
    rewrite Hf in Hg. injection Hg as <-. simpl. split; discriminate.
  - destruct (decide (Some (origin parsed) = getOrigin location)) as [Ho|Ho].
    + rewrite (getResource_same_origin _ _ _ _ _ _ _ _ _ _ _ _ _ _ _ _
                 Hp Hf Ho) in Hg. injection Hg as <-.
      simpl. split; discriminate.
    + destruct (getResource_cross_origin_many _ _ _ _ _ _ _ _ _ _ Hp Hf Ho)
        as (q & tl & m & _ & _ & _ & Hg').
      rewrite Hg' in Hg.
      destruct (_ <? _); injection Hg as <-; simpl; split; discriminate.
Qed.

End MoreMatcherProperties.

(** ** The filter and findMainRequest *)

Section MoreFilterProperties.

Variable timeInputToHrTime : Z -> HrTime.
Variable hrTimeToNanoseconds : HrTime -> Z.

Local Abbreviation matchesSpan' :=
  (matchesSpan timeInputToHrTime hrTimeToNanoseconds).
Local Abbreviation filterResourcesForSpan' :=
  (filterResourcesForSpan timeInputToHrTime hrTimeToNanoseconds).
Local Abbreviation findMainRequest' :=
  (findMainRequest timeInputToHrTime hrTimeToNanoseconds).
Local Abbreviation findMainRequest_step' :=
  (findMainRequest_step timeInputToHrTime hrTimeToNanoseconds).
Local Abbreviation startsAfter' :=
  (startsAfter timeInputToHrTime hrTimeToNanoseconds).
Local Abbreviation gapToSpanEnd' :=
  (gapToSpanEnd timeInputToHrTime hrTimeToNanoseconds).
Local Abbreviation firstLeastGap' :=
  (firstLeastGap timeInputToHrTime hrTimeToNanoseconds).
Local Abbreviation nanos t := (hrTimeToNanoseconds (timeInputToHrTime t)).

(** X8: when none of the resources after the first that start at or after
    the end of the preflight ends exactly with the span, and there is such
    a resource, [findMainRequest] returns the one of them with the least
    gap to the end of the span, the first one among equals. *)
Theorem findMainRequest_first_least_gap
    (resources : list PerformanceResourceTiming)
    (corsPreFlightRequestEndTime : Z) (spanEndTimeHR : HrTime)
    (r0 : PerformanceResourceTiming) :
  (forall r, In r (drop 1 resources) ->
     startsAfter' (nanos corsPreFlightRequestEndTime) r ->
     gapToSpanEnd' (hrTimeToNanoseconds spanEndTimeHR) r <> 0) ->
  In r0 (drop 1 resources) ->
  startsAfter' (nanos corsPreFlightRequestEndTime) r0 ->
  exists i m,
    findMainRequest' resources corsPreFlightRequestEndTime spanEndTimeHR
    = Some m
    /\ firstLeastGap' (nanos corsPreFlightRequestEndTime)
         (hrTimeToNanoseconds spanEndTimeHR) (drop 1 resources) i m.
Proof.
  intros Hnz Hin Hr0.
  exact (findMainRequest_least_gap timeInputToHrTime hrTimeToNanoseconds
           resources corsPreFlightRequestEndTime spanEndTimeHR r0
           Hnz Hin Hr0).
Qed.

Lemma findMainRequest_fold_skips minTime spanEndTime cands :
  (forall r, In r cands -> ~ startsAfter' minTime r) ->
  forall st,
    fold_left (findMainRequest_step' minTime spanEndTime) cands st = st.
Proof.
  induction cands as [|c cands IH]; intros Hc st; simpl; [reflexivity|].
  rewrite findMainRequest_step_skips by (apply Hc; now left).
  apply IH. intros r Hr. apply Hc. now right.
Qed.

(** X9: when no resource after the first starts at or after the end of
    the preflight, [findMainRequest] returns the second resource
    ([undefined] when there is none). *)
Theorem findMainRequest_fallback
    (resources : list PerformanceResourceTiming)
    (corsPreFlightRequestEndTime : Z) (spanEndTimeHR : HrTime) :
  (forall r, In r (drop 1 resources) ->
     ~ startsAfter' (nanos corsPreFlightRequestEndTime) r) ->
  findMainRequest' resources corsPreFlightRequestEndTime spanEndTimeHR
  = resources !! 1%nat.
Proof.
  intros Hnone. unfold findMainRequest.
  now rewrite findMainRequest_fold_skips.
Qed.

Lemma List_filter_sublist (f : PerformanceResourceTiming -> bool) l :
  sublist (List.filter f l) l.
Proof.
  induction l as [|x l IH]; simpl; [constructor|].
  destruct (f x); now constructor.
Qed.

(** X10: the filtered candidates are resources of the list given, in the
    order of the list; the filter neither reorders nor repeats entries. *)
Theorem filterResourcesForSpan_sublist
    (spanUrl : string) (startTimeHR endTimeHR : HrTime)
    (resources : list PerformanceResourceTiming)
    (ignoredResources : WeakSet) (initiatorType' : option string) :
  sublist (filterResourcesForSpan' spanUrl startTimeHR endTimeHR resources
             ignoredResources initiatorType')
          resources.
Proof.
  rewrite filterResourcesForSpan_unfold.
  etransitivity; apply List_filter_sublist.
Qed.

(** X11: entries of other URLs in the ignored set do not matter: adding
    to the ignored set entries whose name is not the span URL leaves the
    filtered candidates as they are. *)
Theorem filterResourcesForSpan_ignores_other_urls
    (spanUrl : string) (startTimeHR endTimeHR : HrTime)
    (resources : list PerformanceResourceTiming)
    (ignoredResources others : WeakSet) (initiatorType' : option string) :
  (forall r, In r resources -> objectId r ∈ others -> name r <> spanUrl) ->
  filterResourcesForSpan' spanUrl startTimeHR endTimeHR resources
    (ignoredResources ∪ others) initiatorType'
  = filterResourcesForSpan' spanUrl startTimeHR endTimeHR resources
      ignoredResources initiatorType'.
Proof.
  intros Hother. rewrite !filterResourcesForSpan_unfold.
  apply List.filter_ext_in. intros r Hr.
  apply filter_In in Hr. destruct Hr as [Hr Hm].
  apply matchesSpan_true in Hm. destruct Hm as (_ & Hname & _).
  unfold WeakSet_has. f_equal. apply bool_decide_ext.
  rewrite elem_of_union. split; [|tauto].
  intros [H|H]; [exact H|]. exfalso. exact (Hother r Hr H Hname).
Qed.

End MoreFilterProperties.

(** The examples' time helpers put the millisecond [t] at [t * 1000000]
    nanoseconds. *)
Lemma Example_nanos (t : Z) :
  Example.hrTimeToNanoseconds (Example.timeInputToHrTime t) = t * 1000000.
Proof.
  unfold Example.hrTimeToNanoseconds, Example.timeInputToHrTime. simpl.
  pose proof (Z.quot_rem' t 1000). lia.
Qed.

Lemma findMainRequest_first_least_gap_witness :
  exists i m,
    findMainRequest Example.timeInputToHrTime Example.hrTimeToNanoseconds
      [Example.preflight; Example.xhr 2 Example.bar 2 8;
       Example.xhr 3 Example.bar 3 9; Example.xhr 4 Example.bar 4 9]
      1 Example.spanEnd = Some m
    /\ firstLeastGap Example.timeInputToHrTime Example.hrTimeToNanoseconds
         (Example.hrTimeToNanoseconds (Example.timeInputToHrTime 1))
         (Example.hrTimeToNanoseconds Example.spanEnd)
         (drop 1 [Example.preflight; Example.xhr 2 Example.bar 2 8;
                  Example.xhr 3 Example.bar 3 9;
                  Example.xhr 4 Example.bar 4 9]) i m.
Proof.
  apply (findMainRequest_first_least_gap
           Example.timeInputToHrTime Example.hrTimeToNanoseconds
           [Example.preflight; Example.xhr 2 Example.bar 2 8;
            Example.xhr 3 Example.bar 3 9; Example.xhr 4 Example.bar 4 9]
           1 Example.spanEnd (Example.xhr 3 Example.bar 3 9)).
  - intros r [<- | [<- | [<- | []]]] _; vm_compute; discriminate.
  - right. now left.
  - vm_compute. discriminate.
Defined.

Lemma findMainRequest_fallback_witness :
  findMainRequest Example.timeInputToHrTime Example.hrTimeToNanoseconds
    [Example.xhr 1 Example.bar 0 5; Example.xhr 2 Example.bar 2 9;
     Example.xhr 3 Example.bar 4 8] 5 Example.spanEnd
  = [Example.xhr 1 Example.bar 0 5; Example.xhr 2 Example.bar 2 9;
     Example.xhr 3 Example.bar 4 8] !! 1%nat.
Proof.
  apply (findMainRequest_fallback
           Example.timeInputToHrTime Example.hrTimeToNanoseconds).
  intros r [<- | [<- | []]]; vm_compute; intros H; now apply H.
Defined.

Lemma filterResourcesForSpan_ignores_other_urls_witness :
  filterResourcesForSpan Example.timeInputToHrTime Example.hrTimeToNanoseconds
    Example.foo Example.spanStart Example.spanEnd
    [Example.xhr 1 Example.foo 0 5; Example.xhr 2 Example.bar 2 9]
    ({[1%positive]} ∪ {[2%positive]}) None
  = filterResourcesForSpan Example.timeInputToHrTime
      Example.hrTimeToNanoseconds
      Example.foo Example.spanStart Example.spanEnd
      [Example.xhr 1 Example.foo 0 5; Example.xhr 2 Example.bar 2 9]
      {[1%positive]} None.
Proof.
  apply (filterResourcesForSpan_ignores_other_urls
           Example.timeInputToHrTime Example.hrTimeToNanoseconds).
  intros r [<- | [<- | []]] Hin; simpl in *.
  - apply elem_of_singleton in Hin. discriminate.
  - discriminate.
Defined.

(** ** When a preflight is reported *)

Section PreflightProperties.

Variable URL : option (string -> option string -> option URLLike).
Variable document_baseURI : option string.
Variable location : option Location.
Variable anchorWithHref : string -> URLLike.
Variable timeInputToHrTime : Z -> HrTime.
Variable hrTimeToNanoseconds : HrTime -> Z.

Local Abbreviation parseUrl' :=
  (parseUrl URL document_baseURI location anchorWithHref).
Local Abbreviation filterResourcesForSpan' :=
  (filterResourcesForSpan timeInputToHrTime hrTimeToNanoseconds).
Local Abbreviation findMainRequest' :=
  (findMainRequest timeInputToHrTime hrTimeToNanoseconds).
Local Abbreviation findMainRequest_step' :=
  (findMainRequest_step timeInputToHrTime hrTimeToNanoseconds).
Local Abbreviation getResource' :=
  (getResource URL document_baseURI location anchorWithHref
               timeInputToHrTime hrTimeToNanoseconds).
Local Abbreviation startsAfter' :=
  (startsAfter timeInputToHrTime hrTimeToNanoseconds).
Local Abbreviation nanos t := (hrTimeToNanoseconds (timeInputToHrTime t)).

(** X12: with another origin and two or more candidates, when every
    sorted candidate after the first starts before the first one ends,
    [getResource] returns the first sorted candidate as main request and no
    preflight. *)
Theorem getResource_cross_origin_all_overlapping
    (spanUrl : string) (startTimeHR endTimeHR : HrTime)
    (resources : list PerformanceResourceTiming)
    (ignoredResources : option WeakSet) (initiatorType' : option string)
    (parsed : URLLike) (x y : PerformanceResourceTiming)
    (rest : list PerformanceResourceTiming)
    (p : PerformanceResourceTiming) (tl : list PerformanceResourceTiming) :
  parseUrl' spanUrl = Some parsed ->
  filterResourcesForSpan' (href parsed) startTimeHR endTimeHR resources
    (default ∅ ignoredResources) initiatorType' = x :: y :: rest ->
  Some (origin parsed) <> getOrigin location ->
  sortResources (x :: y :: rest) = p :: tl ->
  (forall r, In r tl -> fetchStart r < responseEnd p) ->
  getResource' spanUrl startTimeHR endTimeHR resources ignoredResources
    initiatorType'
  = Some {| corsPreFlightRequest := None; mainRequest := Some p |}.
Proof.
  intros Hp Hf Ho Hs Hall.
  destruct (getResource_cross_origin_many URL document_baseURI location
              anchorWithHref timeInputToHrTime hrTimeToNanoseconds
              _ _ _ _ _ _ _ _ _ _ Hp Hf Ho)
    as (q & tl' & m & Hs' & Hin & _ & Hg).
  rewrite Hs in Hs'. injection Hs' as <- <-. rewrite Hg.
  destruct (Z.ltb_spec (fetchStart m) (responseEnd p)) as [_|Hge];
    [reflexivity|].
  specialize (Hall m Hin). lia.
Qed.

(** A recorded gap stays recorded. *)
Lemma findMainRequest_fold_gap_recorded minTime spanEndTime cands :
  forall m z,
    snd (fold_left (findMainRequest_step' minTime spanEndTime) cands
           (m, Some z)) <> None.
Proof.
  induction cands as [|d cands IH]; intros m z; cbn [fold_left];
    [discriminate|].
  unfold findMainRequest_step at 2. destruct (_ && _); apply IH.
Qed.

(** Once the loop has met a candidate that starts at or after [minTime],
    its main request is such a candidate. *)
Lemma findMainRequest_fold_eligible minTime spanEndTime cands :
  forall m g,
    (g = None \/ exists m0, m = Some m0 /\ startsAfter' minTime m0) ->
    (snd (fold_left (findMainRequest_step' minTime spanEndTime) cands
            (m, g)) = None
     /\ forall r, In r cands -> ~ startsAfter' minTime r)
    \/ exists m1,
         fst (fold_left (findMainRequest_step' minTime spanEndTime) cands
                (m, g)) = Some m1
         /\ startsAfter' minTime m1.
Proof.
  induction cands as [|c cands IH]; intros m g Hst; cbn [fold_left fst snd].
  - destruct Hst as [-> | Hm]; [left; split; [reflexivity|intros r []]|].
    right. exact Hm.
  - destruct (Z_le_dec minTime (nanos (fetchStart c))) as [Ec|Ec].
    + rewrite findMainRequest_step_takes by exact Ec.
      destruct (notTruthy g || ltGap _ g) eqn:Et.
      * destruct (IH (Some c) (Some (gapToSpanEnd timeInputToHrTime
                                       hrTimeToNanoseconds spanEndTime c)))
          as [[Hn _] | Hm1]; [right; eauto | | right; exact Hm1].
        exfalso. exact (findMainRequest_fold_gap_recorded _ _ _ _ _ Hn).
      * destruct Hst as [-> | Hm]; [simpl in Et; discriminate|].
        destruct (IH m g (or_intror Hm)) as [[Hn Hall] | Hm1];
          [|right; exact Hm1].
        destruct Hm as (m0 & -> & Hm0). right.
        clear -Hn Hall Hm0.
        rewrite (findMainRequest_fold_skips timeInputToHrTime
                   hrTimeToNanoseconds _ _ _ Hall). eauto.
    + rewrite findMainRequest_step_skips by exact Ec.
      destruct (IH m g Hst) as [[Hn Hall] | Hm1]; [left|right; exact Hm1].
      split; [exact Hn|]. intros r [<- | Hr]; [exact Ec | now apply Hall].
Qed.

(** X13: when the time helpers are strictly increasing, [getResource], on
    two or more candidates of another origin, reports a preflight exactly
    when some sorted candidate after the first starts at or after the end
    of the first. *)
Theorem getResource_preflight_iff_later_start
    (spanUrl : string) (startTimeHR endTimeHR : HrTime)
    (resources : list PerformanceResourceTiming)
    (ignoredResources : option WeakSet) (initiatorType' : option string)
    (parsed : URLLike) (x y : PerformanceResourceTiming)
    (rest : list PerformanceResourceTiming)
    (p : PerformanceResourceTiming) (tl : list PerformanceResourceTiming)
    (info : PerformanceResourceTimingInfo) :
  (forall a b, a < b -> nanos a < nanos b) ->
  parseUrl' spanUrl = Some parsed ->
  filterResourcesForSpan' (href parsed) startTimeHR endTimeHR resources
    (default ∅ ignoredResources) initiatorType' = x :: y :: rest ->
  Some (origin parsed) <> getOrigin location ->
  sortResources (x :: y :: rest) = p :: tl ->
  getResource' spanUrl startTimeHR endTimeHR resources ignoredResources
    initiatorType' = Some info ->
  (corsPreFlightRequest info = Some p
   <-> exists r, In r tl /\ responseEnd p <= fetchStart r).
Proof.
  intros Hmono Hp Hf Ho Hs Hg.
  assert (Hle : forall a b, a <= b -> nanos a <= nanos b).
  { intros a b Hab. destruct (Z.eq_dec a b) as [->|Hne]; [lia|].
    specialize (Hmono a b). lia. }
  destruct (getResource_cross_origin_many URL document_baseURI location
              anchorWithHref timeInputToHrTime hrTimeToNanoseconds
              _ _ _ _ _ _ _ _ _ _ Hp Hf Ho)
    as (q & tl' & m & Hs' & Hin & Hm & Hg').
  rewrite Hs in Hs'. injection Hs' as <- <-.
  rewrite Hg' in Hg. split.
  - intros Hc.
    destruct (Z.ltb_spec (fetchStart m) (responseEnd p)) as [Hlt|Hge];
      injection Hg as <-; simpl in Hc; [discriminate|]. eauto.
  - intros (r & Hr & Hre).
    assert (Hm' : startsAfter' (nanos (responseEnd p)) m).
    { unfold findMainRequest in Hm.
      destruct tl as [|c tl]; [destruct Hr|].
      cbn [drop lookup list_lookup] in Hm. rewrite ?drop_0 in Hm.
      destruct (findMainRequest_fold_eligible (nanos (responseEnd p))
                  (hrTimeToNanoseconds endTimeHR) (c :: tl) (Some c) None
                  (or_introl eq_refl)) as [[_ Hnone] | (m1 & Hm1 & He)].
      - exfalso. apply (Hnone r Hr). unfold startsAfter. now apply Hle.
      - rewrite Hm in Hm1. injection Hm1 as <-. exact He. }
    unfold startsAfter in Hm'.
    destruct (Z.ltb_spec (fetchStart m) (responseEnd p)) as [Hlt|Hge];
      injection Hg as <-; simpl; [|reflexivity].
    specialize (Hmono _ _ Hlt). lia.
Qed.

End PreflightProperties.

Section MoreMatcherExamples.

Import Example.

Lemma getResource_returns_matching_entries_witness :
  In (xhr 1 bar 4 9) [xhr 1 bar 4 9; xhr 2 bar 0 1]
  /\ name (xhr 1 bar 4 9) = href parsedBar
  /\ toLowerCase (initiatorType (xhr 1 bar 4 9))
     = or_else None "xmlhttprequest"
  /\ hrTimeToNanoseconds spanStart
     <= hrTimeToNanoseconds (timeInputToHrTime (fetchStart (xhr 1 bar 4 9)))
  /\ hrTimeToNanoseconds (timeInputToHrTime (responseEnd (xhr 1 bar 4 9)))
     <= hrTimeToNanoseconds spanEnd
  /\ objectId (xhr 1 bar 4 9) ∉ default (∅ : WeakSet) None.
Proof.
  apply (getResource_returns_matching_entries
           (Some newURL) (Some (location_href page)) (Some page) anchor
           timeInputToHrTime hrTimeToNanoseconds
           bar spanStart spanEnd [xhr 1 bar 4 9; xhr 2 bar 0 1] None None
           parsedBar
           {| corsPreFlightRequest := Some (xhr 2 bar 0 1);
              mainRequest := Some (xhr 1 bar 4 9) |}).
  - reflexivity.
  - vm_compute; reflexivity.
  - left. reflexivity.
Defined.

Lemma getResource_preflight_precedes_main_witness :
  Some (origin parsedBar) <> getOrigin (Some page)
  /\ exists tl m,
       sortResources
         (filterResourcesForSpan timeInputToHrTime hrTimeToNanoseconds
            (href parsedBar) spanStart spanEnd
            [xhr 1 bar 4 9; xhr 2 bar 0 1] (default ∅ None) None)
       = xhr 2 bar 0 1 :: tl
       /\ In m tl
       /\ mainRequest {| corsPreFlightRequest := Some (xhr 2 bar 0 1);
                         mainRequest := Some (xhr 1 bar 4 9) |} = Some m
       /\ responseEnd (xhr 2 bar 0 1) <= fetchStart m.
Proof.
  apply (getResource_preflight_precedes_main
           (Some newURL) (Some (location_href page)) (Some page) anchor
           timeInputToHrTime hrTimeToNanoseconds
           bar spanStart spanEnd [xhr 1 bar 4 9; xhr 2 bar 0 1] None None
           parsedBar
           {| corsPreFlightRequest := Some (xhr 2 bar 0 1);
              mainRequest := Some (xhr 1 bar 4 9) |}).
  - reflexivity.
  - vm_compute; reflexivity.
  - reflexivity.
Defined.

Lemma getResource_same_origin_result_witness :
  Example.getResource foo spanStart spanEnd
    [startedLast; xhr 3 bar 1 2; startedFirst] None None
  = Some {| corsPreFlightRequest := None;
            mainRequest :=
              head (filterResourcesForSpan timeInputToHrTime
                      hrTimeToNanoseconds (href (anchor foo)) spanStart
                      spanEnd [startedLast; xhr 3 bar 1 2; startedFirst]
                      (default ∅ None) None) |}.
Proof.
  apply (getResource_same_origin_result
           (Some newURL) (Some (location_href page)) (Some page) anchor
           timeInputToHrTime hrTimeToNanoseconds
           foo spanStart spanEnd [startedLast; xhr 3 bar 1 2; startedFirst]
           None None (anchor foo)).
  - reflexivity.
  - reflexivity.
Defined.

Lemma getResource_main_undefined_iff_no_candidate_witness :
  mainRequest {| corsPreFlightRequest := None; mainRequest := None |} = None
  <-> filterResourcesForSpan timeInputToHrTime hrTimeToNanoseconds
        (href (anchor foo)) spanStart spanEnd [xhr 1 bar 1 2]
        (default ∅ None) None = [].
Proof.
  apply (getResource_main_undefined_iff_no_candidate
           (Some newURL) (Some (location_href page)) (Some page) anchor
           timeInputToHrTime hrTimeToNanoseconds
           foo spanStart spanEnd [xhr 1 bar 1 2] None None (anchor foo)).
  - reflexivity.
  - vm_compute; reflexivity.
Defined.

Lemma getResource_cross_origin_all_overlapping_witness :
  Example.getResource bar spanStart spanEnd
    [xhr 1 bar 2 9; xhr 2 bar 0 5; xhr 3 bar 3 8] None None
  = Some {| corsPreFlightRequest := None;
            mainRequest := Some (xhr 2 bar 0 5) |}.
Proof.
  apply (getResource_cross_origin_all_overlapping
           (Some newURL) (Some (location_href page)) (Some page) anchor
           timeInputToHrTime hrTimeToNanoseconds
           bar spanStart spanEnd
           [xhr 1 bar 2 9; xhr 2 bar 0 5; xhr 3 bar 3 8] None None
           parsedBar (xhr 1 bar 2 9) (xhr 2 bar 0 5) [xhr 3 bar 3 8]
           (xhr 2 bar 0 5) [xhr 1 bar 2 9; xhr 3 bar 3 8]).
  - reflexivity.
  - vm_compute; reflexivity.
  - discriminate.
  - reflexivity.
  - intros r [<- | [<- | []]]; reflexivity.
Defined.

Lemma getResource_preflight_iff_later_start_witness :
  corsPreFlightRequest {| corsPreFlightRequest := Some preflight;
                          mainRequest := Some endsBefore |}
  = Some preflight
  <-> exists r, In r [endsWithSpan; endsBefore]
                /\ responseEnd preflight <= fetchStart r.
Proof.
  apply (getResource_preflight_iff_later_start
           (Some newURL) (Some (location_href page)) (Some page) anchor
           timeInputToHrTime hrTimeToNanoseconds
           bar spanStart spanEnd [preflight; endsWithSpan; endsBefore]
           None None parsedBar preflight endsWithSpan [endsBefore]).
  - intros a b Hab. rewrite !Example_nanos. lia.
  - reflexivity.
  - vm_compute; reflexivity.
  - discriminate.
  - reflexivity.
  - vm_compute; reflexivity.
Defined.

End MoreMatcherExamples.

(** * Further properties of the enricher *)

(** With fetch-start as reference, [addSpanNetworkEvent] issues the event
    of the milestone and ends normally. *)
Lemma addSpanNetworkEvent_milestoneEvent performanceName
    (entries : PerformanceEntries) :
  addSpanNetworkEvent performanceName entries None
  = (milestoneEvent entries performanceName,
     Normal (bool_decide (milestoneEvent entries performanceName <> []))).
Proof.
  unfold addSpanNetworkEvent, milestoneEvent. rewrite !numberAt.
  cbn [or_else].
  destruct (entries !! performanceName) as [[| | |t|]|];
    try (now destruct (entries !! PTN.FETCH_START) as [[]|]).
  destruct (entries !! PTN.FETCH_START) as [[| | |r|]|]; try reflexivity.
  destruct (t >=? r); reflexivity.
Qed.

(** The calls of [addSpanNetworkEvents] and the way it ends, by the [name]
    of the resource. *)
Lemma addSpanNetworkEvents_closed_form (resource : PerformanceEntries) :
  addSpanNetworkEvents resource
  = match resource !! "name" with
    | None =>
        ((flat_map (milestoneEvent resource) milestonesInsecure
          ++ sizeAttributes resource)%list, Normal tt)
    | Some (JString s) =>
        ((flat_map (milestoneEvent resource)
            (if String.prefix "https:" s then milestones
             else milestonesInsecure)
          ++ sizeAttributes resource)%list, Normal tt)
    | Some _ =>
        (flat_map (milestoneEvent resource) milestonesBeforeName,
         Throw "TypeError")
    end.
Proof.
  unfold addSpanNetworkEvents, sizeAttributes.
  rewrite !addSpanNetworkEvent_milestoneEvent. cbv zeta.
  remember (getProp resource PTN.ENCODED_BODY_SIZE) as enc eqn:Henc.
  remember (getProp resource PTN.DECODED_BODY_SIZE) as dec eqn:Hdec.
  clear Henc Hdec. unfold hasKey, getProp.
  destruct (resource !! "name") as [[| | | |s]|];
    cbn -[milestoneEvent String.prefix];
    rewrite ?app_nil_r; try reflexivity;
    try destruct (String.prefix "https:" s);
    destruct (isDefined enc);
    destruct (isDefined dec && strictNotEqual enc dec);
    cbn -[milestoneEvent];
    rewrite <- ?app_assoc, ?app_nil_r; reflexivity.
Qed.

Lemma In_milestoneEvent (entries : PerformanceEntries) m c :
  In c (milestoneEvent entries m) <->
  exists t r,
    c = AddEvent m t
    /\ entries !! m = Some (JNumber t)
    /\ entries !! PTN.FETCH_START = Some (JNumber r)
    /\ r <= t.
Proof.
  unfold milestoneEvent.
  destruct (entries !! m) as [[| | |t|]|];
    try (simpl; split; [intros [] | intros (? & ? & _ & [=] & _)]).
  destruct (entries !! PTN.FETCH_START) as [[| | |r|]|];
    try (simpl; split; [intros [] | intros (? & ? & _ & _ & [=] & _)]).
  destruct (Z.geb_spec t r) as [Hge|Hlt]; simpl; split.
  - intros [<- | []]. exists t, r. repeat split; lia.
  - intros (t' & r' & -> & [= <-] & _). now left.
  - intros [].
  - intros (t' & r' & _ & [= <-] & [= <-] & ?). lia.
Qed.

Lemma not_In_sizeAttributes (resource : PerformanceEntries) eventName t :
  ~ In (AddEvent eventName t) (sizeAttributes resource).
Proof.
  unfold sizeAttributes. cbv zeta. rewrite in_app_iff.
  destruct (isDefined _); destruct (_ && _); simpl;
    intros H; decompose [or] H; try discriminate; contradiction.
Qed.

Lemma In_milestonesInsecure n :
  In n milestonesInsecure
  <-> In n milestones /\ n <> PTN.SECURE_CONNECTION_START.
Proof.
  unfold milestonesInsecure, milestones. simpl. split.
  - intros H; decompose [or] H; subst; try contradiction;
      (split; [tauto | discriminate]).
  - intros [H Hn]; decompose [or] H; subst; try contradiction; tauto.
Qed.

(** X14: on a resource whose [name], when it has one, is a string,
    [addSpanNetworkEvents] adds the event of a name and a time exactly
    when the name is one of the nine milestones (the secure-connection
    start only for a name that starts with ["https:"]), the resource holds
    that time under the name, and the time is not before the resource's
    fetch-start: every milestone that qualifies is reported and nothing
    else is. *)
Theorem addSpanNetworkEvents_events_iff
    (resource : PerformanceEntries) (eventName : string) (t : Z) :
  (resource !! "name" = None
   \/ exists s, resource !! "name" = Some (JString s)) ->
  In (AddEvent eventName t) (calls (addSpanNetworkEvents resource))
  <->
  In eventName milestones
  /\ (eventName = PTN.SECURE_CONNECTION_START ->
      exists s, resource !! "name" = Some (JString s)
                /\ String.prefix "https:" s = true)
  /\ resource !! eventName = Some (JNumber t)
  /\ exists r, resource !! PTN.FETCH_START = Some (JNumber r) /\ r <= t.
Proof.
  intros Hname. rewrite addSpanNetworkEvents_closed_form.
  assert (Hev : forall ms,
            In (AddEvent eventName t)
               (flat_map (milestoneEvent resource) ms
                ++ sizeAttributes resource)
            <-> In eventName ms
                /\ resource !! eventName = Some (JNumber t)
                /\ exists r, resource !! PTN.FETCH_START = Some (JNumber r)
                             /\ r <= t).
  { intros ms. rewrite in_app_iff, in_flat_map. split.
    - intros [(m & Hm & Hin) | Hin];
        [|now apply not_In_sizeAttributes in Hin].
      apply In_milestoneEvent in Hin.
      destruct Hin as (t' & r & [= <- <-] & Ht & Hr & Hle). eauto.
    - intros (Hm & Ht & r & Hr & Hle). left. exists eventName.
      split; [exact Hm|]. apply In_milestoneEvent. eauto 7. }
  destruct Hname as [Hn | [s Hn]]; rewrite Hn; unfold calls; cbn [fst].
  - rewrite Hev, In_milestonesInsecure. split.
    + intros ((Hm & Hns) & Ht & Hr). repeat split; try assumption.
      intros ->. contradiction.
    + intros (Hm & Hsec & Ht & Hr). repeat split; try assumption.
      intros ->. destruct (Hsec eq_refl) as (s & [=] & _).
  - destruct (String.prefix "https:" s) eqn:Ep; rewrite Hev.
    + split; [|tauto]. intros (Hm & Ht & Hr).
      repeat split; try assumption. intros _. eauto.
    + rewrite In_milestonesInsecure. split.
      * intros ((Hm & Hns) & Ht & Hr). repeat split; try assumption.
        intros ->. contradiction.
      * intros (Hm & Hsec & Ht & Hr). repeat split; try assumption.
        intros ->. destruct (Hsec eq_refl) as (s' & [= <-] & Hp).
        congruence.
Qed.

Lemma addSpanNetworkEvents_events_iff_witness :
  In (AddEvent PTN.RESPONSE_END 9)
     (calls (addSpanNetworkEvents Example.compressed))
  <->
  In PTN.RESPONSE_END milestones
  /\ (PTN.RESPONSE_END = PTN.SECURE_CONNECTION_START ->
      exists s, Example.compressed !! "name" = Some (JString s)
                /\ String.prefix "https:" s = true)
  /\ Example.compressed !! PTN.RESPONSE_END = Some (JNumber 9)
  /\ exists r, Example.compressed !! PTN.FETCH_START = Some (JNumber r)
               /\ r <= 9.
Proof.
  apply (addSpanNetworkEvents_events_iff Example.compressed
           PTN.RESPONSE_END 9).
  right. exists "https://foo.com/bar.json". vm_compute. reflexivity.
Defined.

(** X15: whatever the resource holds, the calls of [addSpanNetworkEvents]
    are the events of some of the nine milestones, in the fixed order of
    the milestones, followed by the size attributes, the content length
    before the uncompressed content length. *)
Theorem addSpanNetworkEvents_order (resource : PerformanceEntries) :
  exists ms attrs,
    sublist ms milestones
    /\ sublist attrs
         [SetAttribute SEMATTRS_HTTP_RESPONSE_CONTENT_LENGTH
            (getProp resource PTN.ENCODED_BODY_SIZE);
          SetAttribute SEMATTRS_HTTP_RESPONSE_CONTENT_LENGTH_UNCOMPRESSED
            (getProp resource PTN.DECODED_BODY_SIZE)]
    /\ calls (addSpanNetworkEvents resource)
       = (flat_map (milestoneEvent resource) ms ++ attrs)%list.
Proof.
  rewrite addSpanNetworkEvents_closed_form.
  assert (Hins : sublist milestonesInsecure milestones).
  { unfold milestonesInsecure, milestones.
    do 4 apply sublist_skip. apply sublist_cons. reflexivity. }
  assert (Hbef : sublist milestonesBeforeName milestones).
  { unfold milestonesBeforeName, milestones.
    do 4 apply sublist_skip. apply sublist_nil_l. }
  assert (Hattr : sublist (sizeAttributes resource)
            [SetAttribute SEMATTRS_HTTP_RESPONSE_CONTENT_LENGTH
               (getProp resource PTN.ENCODED_BODY_SIZE);
             SetAttribute SEMATTRS_HTTP_RESPONSE_CONTENT_LENGTH_UNCOMPRESSED
               (getProp resource PTN.DECODED_BODY_SIZE)]).
  { unfold sizeAttributes. cbv zeta.
    destruct (isDefined _); destruct (_ && _); simpl;
      repeat first [ apply sublist_skip | apply sublist_cons
                   | apply sublist_nil ]. }
  destruct (resource !! "name") as [[| | | |s]|]; unfold calls; cbn [fst];
    try (exists milestonesBeforeName, []; rewrite app_nil_r;
         split; [exact Hbef|split; [apply sublist_nil_l|reflexivity]]).
  - destruct (String.prefix "https:" s);
      [exists milestones | exists milestonesInsecure];
      exists (sizeAttributes resource); auto.
  - exists milestonesInsecure, (sizeAttributes resource). auto.
Qed.

(** X16: when the resource has a [name] that is not a string,
    [addSpanNetworkEvents] ends with a TypeError after the first four
    milestones: it sets no attribute and reports no later milestone. *)
Theorem addSpanNetworkEvents_throws_on_bad_name
    (resource : PerformanceEntries) (v : JsValue) :
  resource !! "name" = Some v ->
  (forall s, v <> JString s) ->
  completion (addSpanNetworkEvents resource) = Throw "TypeError"
  /\ calls (addSpanNetworkEvents resource)
     = flat_map (milestoneEvent resource) milestonesBeforeName
  /\ (forall key value,
        ~ In (SetAttribute key value)
             (calls (addSpanNetworkEvents resource))).
Proof.
  intros Hn Hv. rewrite addSpanNetworkEvents_closed_form, Hn.
  destruct v as [| | | |s]; try (now destruct (Hv s));
    (split; [reflexivity|split; [reflexivity|]]);
    intros key value Hin; unfold calls in Hin; cbn [fst] in Hin;
    apply in_flat_map in Hin; destruct Hin as (m & _ & Hin);
    apply In_milestoneEvent in Hin;
    destruct Hin as (? & ? & [=] & _).
Qed.

Lemma addSpanNetworkEvents_throws_on_bad_name_witness :
  completion (addSpanNetworkEvents (<["name" := JNumber 1]> Example.compressed))
  = Throw "TypeError"
  /\ calls (addSpanNetworkEvents (<["name" := JNumber 1]> Example.compressed))
     = flat_map (milestoneEvent (<["name" := JNumber 1]> Example.compressed))
         milestonesBeforeName
  /\ (forall key value,
        ~ In (SetAttribute key value)
             (calls (addSpanNetworkEvents
                       (<["name" := JNumber 1]> Example.compressed)))).
Proof.
  apply (addSpanNetworkEvents_throws_on_bad_name
           (<["name" := JNumber 1]> Example.compressed) (JNumber 1)).
  - vm_compute. reflexivity.
  - intros s. discriminate.
Defined.

(** X17: a resource without a numeric fetch-start gets no event at all,
    whatever its other milestones are. *)
Theorem addSpanNetworkEvents_no_event_without_fetchStart
    (resource : PerformanceEntries) (eventName : string) (t : Z) :
  (forall r, resource !! PTN.FETCH_START <> Some (JNumber r)) ->
  ~ In (AddEvent eventName t) (calls (addSpanNetworkEvents resource)).
Proof.
  intros Hfs Hin. rewrite addSpanNetworkEvents_closed_form in Hin.
  assert (Hno : forall ms,
            ~ In (AddEvent eventName t)
                 (flat_map (milestoneEvent resource) ms)).
  { intros ms H. apply in_flat_map in H. destruct H as (m & _ & H).
    apply In_milestoneEvent in H. destruct H as (? & r & _ & _ & Hr & _).
    exact (Hfs r Hr). }
  unfold calls in Hin.
  destruct (resource !! "name") as [[| | | |s]|]; cbn [fst] in Hin;
    try (exact (Hno _ Hin));
    apply in_app_iff in Hin; destruct Hin as [Hin|Hin];
    try (exact (Hno _ Hin)); exact (not_In_sizeAttributes _ _ _ Hin).
Qed.

Lemma addSpanNetworkEvents_no_event_without_fetchStart_witness :
  ~ In (AddEvent PTN.RESPONSE_END 9)
       (calls (addSpanNetworkEvents
                 (delete PTN.FETCH_START Example.compressed))).
Proof.
  apply (addSpanNetworkEvents_no_event_without_fetchStart
           (delete PTN.FETCH_START Example.compressed) PTN.RESPONSE_END 9).
  intros r. vm_compute. discriminate.
Defined.

(** X18: [addSpanNetworkEvent] never throws, calls the span at most once,
    and returns the span exactly when it added the event ([undefined]
    otherwise). *)
Theorem addSpanNetworkEvent_returns_span_iff_event
    (performanceName : string) (entries : PerformanceEntries)
    (refPerfName : option string) :
  exists b,
    completion (addSpanNetworkEvent performanceName entries refPerfName)
    = Normal b
    /\ (b = true
        <-> exists t,
              calls (addSpanNetworkEvent performanceName entries refPerfName)
              = [AddEvent performanceName t])
    /\ (b = false
        <-> calls (addSpanNetworkEvent performanceName entries refPerfName)
            = []).
Proof.
  unfold addSpanNetworkEvent. rewrite !numberAt.
  set (refName := or_else refPerfName PTN.FETCH_START).
  destruct (entries !! performanceName) as [[| | |t|]|];
    try (exists false; destruct (entries !! refName) as [[]|]; simpl;
         repeat split; try reflexivity; try discriminate;
         intros [? [=]]).
  destruct (entries !! refName) as [[| | |r|]|];
    try (exists false; simpl;
         repeat split; try reflexivity; try discriminate;
         intros [? [=]]).
  destruct (t >=? r).
  - exists true. simpl. repeat split; try discriminate; eauto.
  - exists false. simpl.
    repeat split; try reflexivity; try discriminate; intros [? [=]].
Qed.

(** * normalizeUrl and shouldPropagateTraceHeaders *)

Section UrlHelperProperties.

Variable URL : option (string -> option string -> option URLLike).
Variable document_baseURI : option string.
Variable location : option Location.
Variable anchorWithHref : string -> URLLike.
Variable timeInputToHrTime : Z -> HrTime.
Variable hrTimeToNanoseconds : HrTime -> Z.
Variable RegExp : Type.
Variable urlMatches : string -> string + RegExp -> bool.

Local Abbreviation parseUrl' :=
  (parseUrl URL document_baseURI location anchorWithHref).
Local Abbreviation normalizeUrl' :=
  (normalizeUrl URL document_baseURI location anchorWithHref).
Local Abbreviation getResource' :=
  (getResource URL document_baseURI location anchorWithHref
               timeInputToHrTime hrTimeToNanoseconds).
Local Abbreviation shouldPropagateTraceHeaders' :=
  (shouldPropagateTraceHeaders URL document_baseURI location anchorWithHref
     RegExp urlMatches).

(** X19: [shouldPropagateTraceHeaders] answers for every URL that parses;
    the answer is [true] exactly when the URL has the origin of the page,
    or the allow-list (a single non-empty string or regular expression, or
    the elements of an array) has a pattern that [urlMatches] the span URL
    as it was given.  Without an allow-list only URLs of the page's origin
    get the headers. *)
Theorem shouldPropagateTraceHeaders_iff
    (spanUrl : string)
    (propagateTraceHeaderCorsUrls :
       option (PropagateTraceHeaderCorsUrls RegExp))
    (parsed : URLLike) :
  parseUrl' spanUrl = Some parsed ->
  exists b,
    shouldPropagateTraceHeaders' spanUrl propagateTraceHeaderCorsUrls
    = Some b
    /\ (b = true
        <-> Some (origin parsed) = getOrigin location
            \/ exists p,
                 urlMatches spanUrl p = true
                 /\ ((propagateTraceHeaderCorsUrls = Some (OnePattern p)
                      /\ p <> inl "")
                     \/ exists l,
                          propagateTraceHeaderCorsUrls
                          = Some (PatternArray l)
                          /\ In p l)).
Proof.
  intros Hp. unfold shouldPropagateTraceHeaders. rewrite Hp. simpl.
  destruct (decide (Some (origin parsed) = getOrigin location)) as [Ho|Ho].
  - rewrite bool_decide_eq_true_2 by exact Ho. exists true. tauto.
  - rewrite bool_decide_eq_false_2 by exact Ho.
    eexists. split; [reflexivity|]. rewrite existsb_exists. split.
    + intros (p & Hin & Hm). right. exists p. split; [exact Hm|].
      destruct propagateTraceHeaderCorsUrls as [[[[|c s]|r]|l]|];
        simpl in Hin; try contradiction.
      * destruct Hin as [<- | []]. left. split; [reflexivity|discriminate].
      * destruct Hin as [<- | []]. left. split; [reflexivity|discriminate].
      * right. eauto.
    + intros [Hsame | (p & Hm & Hcfg)]; [contradiction|].
      exists p. split; [|exact Hm].
      destruct Hcfg as [[-> Hne] | (l & -> & Hin)]; [|exact Hin].
      destruct p as [[|c s]|r]; simpl; auto; now destruct Hne.
Qed.

(** X20: [getResource] throws exactly when [normalizeUrl] does, and the
    name of every entry it returns is [normalizeUrl] of the span URL. *)
Theorem getResource_names_are_normalized
    (spanUrl : string) (startTimeHR endTimeHR : HrTime)
    (resources : list PerformanceResourceTiming)
    (ignoredResources : option WeakSet) (initiatorType' : option string) :
  (getResource' spanUrl startTimeHR endTimeHR resources ignoredResources
     initiatorType' = None
   <-> normalizeUrl' spanUrl = None)
  /\ (forall info r,
        getResource' spanUrl startTimeHR endTimeHR resources
          ignoredResources initiatorType' = Some info ->
        mainRequest info = Some r \/ corsPreFlightRequest info = Some r ->
        normalizeUrl' spanUrl = Some (name r)).
Proof.
  unfold normalizeUrl. split.
  - split.
    + intros Hg. destruct (parseUrl' spanUrl) as [parsed|] eqn:Hp;
        [|reflexivity].
      exfalso. clear -Hg Hp.
      destruct (filterResourcesForSpan timeInputToHrTime hrTimeToNanoseconds
                  (href parsed) startTimeHR endTimeHR resources
                  (default ∅ ignoredResources) initiatorType')
        as [|x [|y rest]] eqn:Hf.
      * unfold getResource in Hg. rewrite Hp in Hg. simpl in Hg.
        rewrite Hf in Hg. discriminate.
      * unfold getResource in Hg. rewrite Hp in Hg. simpl in Hg.
        rewrite Hf in Hg. discriminate.
      * destruct (decide (Some (origin parsed) = getOrigin location))
          as [Ho|Ho].
        -- rewrite (getResource_same_origin URL document_baseURI location
                      anchorWithHref timeInputToHrTime hrTimeToNanoseconds
                      _ _ _ _ _ _ _ _ _ _ Hp Hf Ho) in Hg. discriminate.
        -- destruct (getResource_cross_origin_many URL document_baseURI
                       location anchorWithHref timeInputToHrTime
                       hrTimeToNanoseconds _ _ _ _ _ _ _ _ _ _ Hp Hf Ho)
             as (q & tl & m & _ & _ & _ & Hg').
           rewrite Hg' in Hg. destruct (_ <? _); discriminate.
    + intros Hn. unfold getResource.
      destruct (parseUrl' spanUrl); [discriminate|reflexivity].
  - intros info r Hg Hr.
    destruct (parseUrl' spanUrl) as [parsed|] eqn:Hp.
    + pose proof (getResource_returns_candidates URL document_baseURI
                    location anchorWithHref timeInputToHrTime
                    hrTimeToNanoseconds _ _ _ _ _ _ _ _ _ Hp Hg Hr) as Hin.
      apply filterResourcesForSpan_In in Hin.
      destruct Hin as (_ & Hm & _). apply matchesSpan_true in Hm.
      destruct Hm as (_ & -> & _). reflexivity.
    + unfold getResource in Hg. rewrite Hp in Hg. discriminate.
Qed.

End UrlHelperProperties.

Lemma shouldPropagateTraceHeaders_iff_witness :
  exists b,
    UrlExample.shouldPropagateTraceHeaders Example.bar
      (Some (PatternArray [inl "http://baz.com/"; inr "http://bar.com/"]))
    = Some b
    /\ (b = true
        <-> Some (origin Example.parsedBar) = getOrigin (Some Example.page)
            \/ exists p,
                 UrlExample.urlMatches Example.bar p = true
                 /\ ((Some (PatternArray
                              [inl "http://baz.com/"; inr "http://bar.com/"])
                      = Some (OnePattern p)
                      /\ p <> inl "")
                     \/ exists l,
                          Some (PatternArray
                                  [inl "http://baz.com/";
                                   inr "http://bar.com/"])
                          = Some (PatternArray l)
                          /\ In p l)).
Proof.
  apply (shouldPropagateTraceHeaders_iff
           (Some Example.newURL) (Some (location_href Example.page))
           (Some Example.page) Example.anchor string UrlExample.urlMatches
           Example.bar
           (Some (PatternArray [inl "http://baz.com/"; inr "http://bar.com/"]))
           Example.parsedBar).
  reflexivity.
Defined.

(** * getFetchBodyLength *)

Lemma lengthPromise_loop_chunks chunkLengths rest length :
  lengthPromise_loop (chunkReads chunkLengths ++ rest) length
  = lengthPromise_loop rest (length + totalLength chunkLengths).
Proof.
  revert length. induction chunkLengths as [|n l IH]; intros length; simpl.
  - f_equal. lia.
  - rewrite IH. f_equal. lia.
Qed.

(** X21: on a stream that delivers chunks and then a result with [done],
    the length promise resolves to the sum of the lengths of the chunks,
    plus the length of a chunk that comes with [done] itself; what the
    stream would deliver after [done] is not read.  On a stream that is
    closed after its chunks it resolves to the sum of their lengths. *)
Theorem lengthPromise_sums_chunks
    (chunkLengths : list Z) (last : option Z) (rest : list ReadOutcome)
    (tee' : bool) :
  lengthPromise
    {| reads := chunkReads chunkLengths ++ ReadResult last true :: rest;
       hasTee := tee' |}
  = Resolved (totalLength chunkLengths + default 0 last)
  /\ lengthPromise {| reads := chunkReads chunkLengths; hasTee := tee' |}
     = Resolved (totalLength chunkLengths).
Proof.
  unfold lengthPromise. cbn [reads]. split.
  - rewrite lengthPromise_loop_chunks. destruct last; simpl; f_equal; lia.
  - rewrite <- (app_nil_r (chunkReads chunkLengths)).
    rewrite lengthPromise_loop_chunks. reflexivity.
Qed.

(** X22: the length promise is rejected exactly when a read is rejected
    before any result with [done]. *)
Theorem lengthPromise_rejected_iff (body : ReadableStream) :
  lengthPromise body = Rejected
  <-> exists before rest,
        reads body = (before ++ ReadRejected :: rest)%list
        /\ Forall (fun o => exists v, o = ReadResult v false) before.
Proof.
  unfold lengthPromise. generalize 0. destruct body as [outcomes t].
  cbn [reads]. induction outcomes as [|o l IH]; intros length; simpl.
  - split; [discriminate|]. intros (before & rest & H & _).
    destruct before; discriminate.
  - destruct o as [v [|]|].
    + split; [discriminate|]. intros (before & rest & H & Hall).
      destruct before as [|o before]; [discriminate|].
      injection H as <- _. apply Forall_cons in Hall.
      destruct Hall as [(v' & [=]) _].
    + rewrite IH. split.
      * intros (before & rest & -> & Hall).
        exists (ReadResult v false :: before), rest. split; [reflexivity|].
        constructor; eauto.
      * intros (before & rest & H & Hall).
        destruct before as [|o before]; [discriminate|].
        injection H as <- ->. apply Forall_cons in Hall.
        destruct Hall as [_ Hall]. eauto.
    + split; [|reflexivity]. intros _. exists [], l. split; [reflexivity|].
      constructor.
Qed.

Section FetchBodyLengthProperties.

Variable Document : Type.
Variable serializeToString : Document -> string.
Variable document : Document.
Variable DocumentDefined : bool.
Variable searchParamsToString : list (string * string) -> string.

Local Abbreviation getFetchBodyLength' :=
  (getFetchBodyLength Document serializeToString document DocumentDefined
     searchParamsToString).
Local Abbreviation getXHRBodyLength' :=
  (getXHRBodyLength Document serializeToString document DocumentDefined
     searchParamsToString).



End FetchBodyLengthProperties.

(** * getElementXPath *)

Lemma In_combine_seq (l : list Sibling) off k s :
  l !! k = Some s ->
  In ((off + k)%nat, s) (combine (seq off (length l)) l).
Proof.
  revert off k. induction l as [|x l IH]; intros off k H; [discriminate|].
  destruct k as [|k]; simpl in *.
  - injection H as ->. left. f_equal. lia.
  - right. replace (off + S k)%nat with (S off + k)%nat by lia.
    now apply IH.
Qed.

Lemma indexOfTarget_filter (P : Sibling -> bool) (l : list Sibling) :
  forall off k i s,
    l !! k = Some s -> P s = true ->
    indexOfTarget (off + k)
      (List.filter (fun e => P (snd e)) (combine (seq off (length l)) l)) i
    = i + Z.of_nat (length (List.filter P (take k l))).
Proof.
  induction l as [|x l IH]; intros off k i s Hk Hs; [discriminate|].
  destruct k as [|k]; simpl in Hk.
  - injection Hk as ->. simpl. rewrite Hs. simpl.
    replace (off + 0)%nat with off by lia. rewrite Nat.eqb_refl. lia.
  - cbn [length seq combine List.filter take snd].
    replace (off + S k)%nat with (S off + k)%nat by lia.
    destruct (P x) eqn:Ex.
    + cbn [indexOfTarget length].
      destruct (Nat.eqb_spec off (S off + k)) as [Heq|_]; [lia|].
      rewrite (IH (S off) k (i + 1) s Hk Hs). lia.
    + apply (IH (S off) k i s Hk Hs).
Qed.

(** X25: for a node that its parent lists at [position] with the node's
    own type and local name, [getNodeIndex] is one more than the number of
    the children before it that have the same local name and the same node
    type (for a CDATA section: its type or the text type); so it is at
    least 1. *)
Theorem getNodeIndex_counts_earlier_siblings
    (type : Z) (name id : option string) (parent : Node)
    (childNodes : list Sibling) (position : nat) :
  childNodes !! position
  = Some {| sibling_nodeType := type; sibling_localName := name |} ->
  let allowedTypes :=
    if type =? NodeTypes.CDATA_SECTION_NODE
    then [type; NodeTypes.TEXT_NODE] else [type] in
  getNodeIndex (ChildNode type name id parent childNodes position)
  = 1 + Z.of_nat
          (length (List.filter (similarSibling allowedTypes name)
                     (take position childNodes))).
Proof.
  intros Hpos allowedTypes. unfold getNodeIndex. fold allowedTypes.
  assert (Hself : similarSibling allowedTypes name
                    {| sibling_nodeType := type; sibling_localName := name |}
                  = true).
  { unfold similarSibling, allowedTypes. cbn [sibling_nodeType
      sibling_localName]. rewrite bool_decide_eq_true_2 by reflexivity.
    destruct (type =? NodeTypes.CDATA_SECTION_NODE); simpl;
      rewrite Z.eqb_refl; reflexivity. }
  pose proof (In_combine_seq childNodes 0 position _ Hpos) as Hin.
  pose proof (indexOfTarget_filter (similarSibling allowedTypes name)
                childNodes 0 position 0 _ Hpos Hself) as Hidx.
  cbn [Nat.add] in Hin, Hidx.
  set (elements := List.filter _ (combine _ childNodes)) in *.
  assert (Hel : In (position, {| sibling_nodeType := type;
                                 sibling_localName := name |}) elements).
  { unfold elements. apply filter_In. split; [exact Hin|exact Hself]. }
  destruct elements as [|e elements']; [destruct Hel|].
  cbn [length Nat.leb]. rewrite Hidx. lia.
Qed.

Lemma getNodeIndex_counts_earlier_siblings_witness :
  getNodeIndex
    (ChildNode NodeTypes.CDATA_SECTION_NODE None None
       (DetachedNode NodeTypes.ELEMENT_NODE (Some "p") None)
       [{| sibling_nodeType := NodeTypes.TEXT_NODE;
           sibling_localName := None |};
        {| sibling_nodeType := NodeTypes.ELEMENT_NODE;
           sibling_localName := Some "b" |};
        {| sibling_nodeType := NodeTypes.CDATA_SECTION_NODE;
           sibling_localName := None |}] 2)
  = 1 + Z.of_nat
          (length
             (List.filter
                (similarSibling
                   [NodeTypes.CDATA_SECTION_NODE; NodeTypes.TEXT_NODE] None)
                (take 2
                   [{| sibling_nodeType := NodeTypes.TEXT_NODE;
                       sibling_localName := None |};
                    {| sibling_nodeType := NodeTypes.ELEMENT_NODE;
                       sibling_localName := Some "b" |};
                    {| sibling_nodeType := NodeTypes.CDATA_SECTION_NODE;
                       sibling_localName := None |}]))).
Proof.
  apply (getNodeIndex_counts_earlier_siblings
           NodeTypes.CDATA_SECTION_NODE None None
           (DetachedNode NodeTypes.ELEMENT_NODE (Some "p") None)).
  reflexivity.
Defined.

(** X26: with [optimised], the XPath of an element that has a non-empty
    [id] is [//*[@id="..."]] with that id, whatever its ancestors and
    siblings are. *)
Theorem getElementXPath_optimised_id (target : Node) (id : string) :
  nodeType target = NodeTypes.ELEMENT_NODE ->
  getAttribute_id target = Some id ->
  id <> "" ->
  getElementXPath target true
  = "//*[@id=" ++ doubleQuote ++ id ++ doubleQuote ++ "]".
Proof.
  intros Htype Hid Hne.
  assert (Hval : getNodeValue target true
                 = "//*[@id=" ++ doubleQuote ++ id ++ doubleQuote ++ "]").
  { unfold getNodeValue. rewrite Htype, Hid. cbn [Z.eqb NodeTypes.ELEMENT_NODE
      Pos.eqb andb isTruthyString templateString].
    destruct (String.eqb_spec id "") as [->|_]; [contradiction|].
    reflexivity. }
  assert (Hidx : indexOf (getNodeValue target true) "@id" = 4).
  { rewrite Hval. reflexivity. }
  destruct target; cbn [getElementXPath]; rewrite Hidx, Hval, Htype;
    reflexivity.
Qed.

Lemma getElementXPath_optimised_id_witness :
  getElementXPath
    (ChildNode NodeTypes.ELEMENT_NODE (Some "button") (Some "btn22")
       (DetachedNode NodeTypes.ELEMENT_NODE (Some "div") (Some "menu"))
       [{| sibling_nodeType := NodeTypes.ELEMENT_NODE;
           sibling_localName := Some "button" |}] 0) true
  = "//*[@id=" ++ doubleQuote ++ "btn22" ++ doubleQuote ++ "]".
Proof.
  apply getElementXPath_optimised_id; [reflexivity|reflexivity|discriminate].
Defined.

Lemma withoutAncestorIds_reads keepOwn n :
  nodeType (withoutAncestorIds keepOwn n) = nodeType n
  /\ localName (withoutAncestorIds keepOwn n) = localName n
  /\ getNodeIndex (withoutAncestorIds keepOwn n) = getNodeIndex n.
Proof. destruct n; repeat split. Qed.

Lemma getNodeValue_withoutAncestorIds_false keepOwn n :
  getNodeValue (withoutAncestorIds keepOwn n) false = getNodeValue n false.
Proof.
  destruct (withoutAncestorIds_reads keepOwn n) as (Ht & Hn & Hi).
  unfold getNodeValue. rewrite Ht, Hn, Hi. reflexivity.
Qed.

Lemma getNodeValue_withoutAncestorIds_own n optimised :
  getNodeValue (withoutAncestorIds true n) optimised
  = getNodeValue n optimised.
Proof.
  destruct (withoutAncestorIds_reads true n) as (Ht & Hn & Hi).
  unfold getNodeValue. rewrite Ht, Hn, Hi.
  destruct n; reflexivity.
Qed.

Lemma getElementXPath_unfold target optimised :
  getElementXPath target optimised
  = if nodeType target =? NodeTypes.DOCUMENT_NODE then "/"
    else
      if optimised && (0 <? indexOf (getNodeValue target optimised) "@id")
      then getNodeValue target optimised
      else
        (match target with
         | ChildNode _ _ _ parentNode _ _ => getElementXPath parentNode false
         | DetachedNode _ _ _ => ""
         end) ++ getNodeValue target optimised.
Proof. destruct target; reflexivity. Qed.

Lemma getElementXPath_withoutAncestorIds_false keepOwn n :
  getElementXPath (withoutAncestorIds keepOwn n) false
  = getElementXPath n false.
Proof.
  revert keepOwn. induction n as [type name id|type name id parent IH
                                  childNodes position]; intros keepOwn;
    [ set (n := DetachedNode type name id)
    | set (n := ChildNode type name id parent childNodes position) ];
    rewrite (getElementXPath_unfold (withoutAncestorIds keepOwn n)),
      (getElementXPath_unfold n);
    rewrite getNodeValue_withoutAncestorIds_false;
    rewrite (proj1 (withoutAncestorIds_reads keepOwn n));
    unfold n; cbn [withoutAncestorIds]; rewrite ?IH; reflexivity.
Qed.

(** X27: the [id] attributes of the ancestors never enter the XPath: with
    or without [optimised], removing them from every ancestor leaves the
    XPath of the node unchanged.  Only the node's own [id] can shorten the
    path. *)
Theorem getElementXPath_ignores_ancestor_ids
    (target : Node) (optimised : bool) :
  getElementXPath (withoutAncestorIds true target) optimised
  = getElementXPath target optimised.
Proof.
  rewrite (getElementXPath_unfold (withoutAncestorIds true target)),
    (getElementXPath_unfold target).
  rewrite getNodeValue_withoutAncestorIds_own.
  rewrite (proj1 (withoutAncestorIds_reads true target)).
  destruct target as [type name id|type name id parent childNodes position];
    cbn [withoutAncestorIds];
    rewrite ?getElementXPath_withoutAncestorIds_false; reflexivity.
Qed.

(** * A buffer in the order of fetch-start *)

Lemma filter_StronglySorted (f : PerformanceResourceTiming -> bool) l :
  StronglySorted byFetchStart l ->
  StronglySorted byFetchStart (List.filter f l).
Proof.
  induction 1 as [|x l Hl IH Hx]; simpl; [constructor|].
  destruct (f x); [|exact IH]. constructor; [exact IH|].
  rewrite List.Forall_forall in *. intros y Hy.
  apply filter_In in Hy. now apply Hx.
Qed.

Lemma sortResources_of_sorted l :
  StronglySorted byFetchStart l -> sortResources l = l.
Proof.
  induction 1 as [|x l Hl IH Hx]; simpl; [reflexivity|].
  rewrite IH. destruct l as [|y l]; [reflexivity|]. simpl.
  inversion Hx as [|? ? Hxy _]; subst. unfold byFetchStart in Hxy.
  destruct (Z.ltb_spec (fetchStart y) (fetchStart x)); [lia|reflexivity].
Qed.

Section SortedBuffer.

Variable URL : option (string -> option string -> option URLLike).
Variable document_baseURI : option string.
Variable location : option Location.
Variable anchorWithHref : string -> URLLike.
Variable timeInputToHrTime : Z -> HrTime.
Variable hrTimeToNanoseconds : HrTime -> Z.

(** X28: when the resources list is in ascending order of fetch-start,
    sorting the candidates changes nothing, and for a URL of the page's own
    origin the main request of [getResource] is the first of the sorted
    candidates, the one that started earliest. *)
Theorem getResource_same_origin_sorted_buffer
    (spanUrl : string) (startTimeHR endTimeHR : HrTime)
    (resources : list PerformanceResourceTiming)
    (ignoredResources : option WeakSet) (initiatorType' : option string)
    (parsed : URLLike) :
  StronglySorted byFetchStart resources ->
  parseUrl URL document_baseURI location anchorWithHref spanUrl
  = Some parsed ->
  Some (origin parsed) = getOrigin location ->
  let filteredResources :=
    filterResourcesForSpan timeInputToHrTime hrTimeToNanoseconds
      (href parsed) startTimeHR endTimeHR resources
      (default ∅ ignoredResources) initiatorType' in
  sortResources filteredResources = filteredResources
  /\ getResource URL document_baseURI location anchorWithHref
       timeInputToHrTime hrTimeToNanoseconds spanUrl startTimeHR endTimeHR
       resources ignoredResources initiatorType'
     = Some {| corsPreFlightRequest := None;
               mainRequest := head (sortResources filteredResources) |}.
Proof.
  intros Hsorted Hp Ho filteredResources.
  assert (Hs : sortResources filteredResources = filteredResources).
  { apply sortResources_of_sorted. unfold filteredResources.
    rewrite filterResourcesForSpan_unfold.
    now do 2 apply filter_StronglySorted. }
  split; [exact Hs|]. rewrite Hs.
  unfold filteredResources.
  destruct (filterResourcesForSpan timeInputToHrTime hrTimeToNanoseconds
              (href parsed) startTimeHR endTimeHR resources
              (default ∅ ignoredResources) initiatorType')
    as [|x [|y rest]] eqn:Hf.
  - unfold getResource. rewrite Hp. simpl. rewrite Hf. reflexivity.
  - unfold getResource. rewrite Hp. simpl. rewrite Hf. reflexivity.
  - apply (getResource_same_origin URL document_baseURI location
             anchorWithHref timeInputToHrTime hrTimeToNanoseconds
             _ _ _ _ _ _ _ _ _ _ Hp Hf Ho).
Qed.

End SortedBuffer.

Lemma getResource_same_origin_sorted_buffer_witness :
  sortResources
    (filterResourcesForSpan Example.timeInputToHrTime
       Example.hrTimeToNanoseconds (href (Example.anchor Example.foo))
       Example.spanStart Example.spanEnd
       [Example.startedFirst; Example.startedLast] (default ∅ None) None)
  = filterResourcesForSpan Example.timeInputToHrTime
      Example.hrTimeToNanoseconds (href (Example.anchor Example.foo))
      Example.spanStart Example.spanEnd
      [Example.startedFirst; Example.startedLast] (default ∅ None) None
  /\ Example.getResource Example.foo Example.spanStart Example.spanEnd
       [Example.startedFirst; Example.startedLast] None None
     = Some {| corsPreFlightRequest := None;
               mainRequest :=
                 head (sortResources
                         (filterResourcesForSpan Example.timeInputToHrTime
                            Example.hrTimeToNanoseconds
                            (href (Example.anchor Example.foo))
                            Example.spanStart Example.spanEnd
                            [Example.startedFirst; Example.startedLast]
                            (default ∅ None) None)) |}.
Proof.
  apply (getResource_same_origin_sorted_buffer
           (Some Example.newURL) (Some (location_href Example.page))
           (Some Example.page) Example.anchor
           Example.timeInputToHrTime Example.hrTimeToNanoseconds
           Example.foo Example.spanStart Example.spanEnd
           [Example.startedFirst; Example.startedLast] None None
           (Example.anchor Example.foo)).
  - repeat constructor. unfold byFetchStart. vm_compute. discriminate.
  - reflexivity.
  - reflexivity.
Defined.
